(** * Indentation line processor

    A shallow embedding of
    [src/vs/editor/common/languages/supports/indentationLineProcessor.ts]:
    the line sanitizer ([IndentationLineProcessor]), the scoped context
    extractor ([IndentationContextProcessor]) and the rule facade
    ([ProcessedIndentRulesSupport]).

    Strings are [string]; a character stands for one UTF-16 code unit.  All
    the characters the code treats specially are ASCII, and a surrogate pair
    is never one of them, so iterating by code point or by code unit gives
    the same escaped pattern.  Offsets, columns and line numbers are [Z], as
    the code subtracts them freely. *)

From Stdlib Require Import Bool Arith ZArith Lia List String Ascii.
Import ListNotations.
Local Open Scope string_scope.

Set Implicit Arguments.

(** ** Error results

    [new RegExp(p)] throws on a malformed pattern; a thrown exception is
    [None] and aborts whatever called it. *)

Definition bind {A B : Type} (m : option A) (f : A -> option B) : option B :=
  match m with
  | Some a => f a
  | None => None
  end.

Notation "x <- m ;; k" := (bind m (fun x => k))
  (at level 61, m at next level, right associativity).
Notation "' p <- m ;; k" := (bind m (fun x => let p := x in k))
  (at level 61, p pattern, m at next level, right associativity).

(** ** JavaScript strings *)

Module JsString.

(** [s.substring(start)]: a negative start is clamped to zero. *)
Fixpoint drop (n : nat) (s : string) : string :=
  match n, s with
  | O, _ => s
  | S n', String _ s' => drop n' s'
  | S _, EmptyString => EmptyString
  end.

Fixpoint take (n : nat) (s : string) : string :=
  match n, s with
  | S n', String c s' => String c (take n' s')
  | _, _ => EmptyString
  end.

Definition substringFrom (s : string) (start : Z) : string :=
  drop (Z.to_nat start) s.

(** [s.substring(start, end)]: both arguments are clamped to
    [0 .. s.length] and swapped when [start > end]. *)
Definition substring (s : string) (start end_ : Z) : string :=
  let len := Z.of_nat (String.length s) in
  let a := Z.min (Z.max start 0) len in
  let b := Z.min (Z.max end_ 0) len in
  let lo := Z.min a b in
  let hi := Z.max a b in
  take (Z.to_nat (hi - lo)) (drop (Z.to_nat lo) s).

Definition length (s : string) : Z := Z.of_nat (String.length s).

(** [s.startsWith(b)] *)
Fixpoint startsWith (b s : string) : bool :=
  match b, s with
  | EmptyString, _ => true
  | String x b', String y s' => Ascii.eqb x y && startsWith b' s'
  | String _ _, EmptyString => false
  end.

(** [s.includes(b)] *)
Fixpoint includes (b s : string) : bool :=
  startsWith b s ||
  match s with
  | EmptyString => false
  | String _ s' => includes b s'
  end.

(** [ss.join('')] *)
Definition join (ss : list string) : string := fold_right append EmptyString ss.

End JsString.

(** ** JavaScript regular expressions

    The fragment of the pattern language modelled here: pattern characters,
    identity escapes of syntax characters, [.], [^], [$], character classes
    with ranges, groups, alternation and the greedy quantifiers [*], [+],
    [?].  [RegExp] answers [None] on a pattern that is malformed or outside
    this fragment (counted repetition, lazy quantifiers, look-around,
    back-references, class escapes). *)

Module JsRegExp.

Inductive Regex : Type :=
| REmpty
| RChar (c : ascii)
| RAny
| RBol
| REol
| RClass (negated : bool) (ranges : list (ascii * ascii))
| RSeq (r1 r2 : Regex)
| RAlt (r1 r2 : Regex)
| RStar (r : Regex)
| RPlus (r : Regex)
| ROpt (r : Regex).

(** SyntaxCharacter of the pattern grammar. *)
Definition syntaxCharacters : list ascii :=
  list_ascii_of_string "^$\.*+?()[]{}|".

Definition isSyntaxCharacter (c : ascii) : bool :=
  existsb (Ascii.eqb c) syntaxCharacters.

(** *** Parsing *)

(** One class atom: a character or an escaped syntax character (or [-]). *)
Definition parseClassAtom (p : string) : option (ascii * string) :=
  match p with
  | EmptyString => None
  | String "\" (String c rest) =>
      if isSyntaxCharacter c || Ascii.eqb c "-" || Ascii.eqb c "/"
      then Some (c, rest) else None
  | String "\" EmptyString => None
  | String c rest => Some (c, rest)
  end.

(** The class body after [[] (and after [^] when negated), up to the
    closing bracket. *)
Fixpoint parseClassRanges (fuel : nat) (p : string)
  : option (list (ascii * ascii) * string) :=
  match fuel with
  | O => None
  | S fuel' =>
      match p with
      | EmptyString => None
      | String "]" rest => Some ([], rest)
      | _ =>
          '(lo, p1) <- parseClassAtom p ;;
          match p1 with
          | String "-" (String "]" rest) => Some ([(lo, lo); ("-"%char, "-"%char)], rest)
          | String "-" p2 =>
              '(hi, p3) <- parseClassAtom p2 ;;
              if (nat_of_ascii hi <? nat_of_ascii lo)%nat then None
              else
                '(rs, rest) <- parseClassRanges fuel' p3 ;;
                Some ((lo, hi) :: rs, rest)
          | _ =>
              '(rs, rest) <- parseClassRanges fuel' p1 ;;
              Some ((lo, lo) :: rs, rest)
          end
      end
  end.

(** An atom; [parseD] parses the disjunction inside a group. *)
Definition parseAtom (parseD : string -> option (Regex * string)) (p : string)
  : option (Regex * string) :=
  match p with
  | EmptyString => None
  | String "." rest => Some (RAny, rest)
  | String "^" rest => Some (RBol, rest)
  | String "$" rest => Some (REol, rest)
  | String "\" (String c rest) =>
      if isSyntaxCharacter c || Ascii.eqb c "/" then Some (RChar c, rest) else None
  | String "\" EmptyString => None
  | String "[" (String "^" rest) =>
      '(rs, rest') <- parseClassRanges (S (String.length rest)) rest ;;
      Some (RClass true rs, rest')
  | String "[" rest =>
      '(rs, rest') <- parseClassRanges (S (String.length rest)) rest ;;
      Some (RClass false rs, rest')
  | String "(" (String "?" _) => None
  | String "(" rest =>
      '(r, rest') <- parseD rest ;;
      match rest' with
      | String ")" rest'' => Some (r, rest'')
      | _ => None
      end
  | String c rest =>
      if isSyntaxCharacter c then None else Some (RChar c, rest)
  end.

(** An optional greedy quantifier after an atom.  Assertions take none,
    and a quantifier followed by [?] (lazy) is outside the fragment. *)
Definition parseQuantifier (atom : Regex) (p : string) : option (Regex * string) :=
  let quantified (q : Regex) (rest : string) :=
    match atom, rest with
    | RBol, _ | REol, _ => None
    | _, String "?" _ => None
    | _, _ => Some (q, rest)
    end in
  match p with
  | String "*" rest => quantified (RStar atom) rest
  | String "+" rest => quantified (RPlus atom) rest
  | String "?" rest => quantified (ROpt atom) rest
  | _ => Some (atom, p)
  end.

(** A sequence of terms, up to [|], [)] or the end of the pattern. *)
Fixpoint parseAlternative (parseD : string -> option (Regex * string))
    (fuel : nat) (p : string) : option (Regex * string) :=
  match fuel with
  | O => None
  | S fuel' =>
      match p with
      | EmptyString => Some (REmpty, p)
      | String "|" _ => Some (REmpty, p)
      | String ")" _ => Some (REmpty, p)
      | _ =>
          '(atom, p1) <- parseAtom parseD p ;;
          '(term, p2) <- parseQuantifier atom p1 ;;
          '(alt, p3) <- parseAlternative parseD fuel' p2 ;;
          Some (RSeq term alt, p3)
      end
  end.

Fixpoint parseDisjunction (fuel : nat) (p : string) : option (Regex * string) :=
  match fuel with
  | O => None
  | S fuel' =>
      '(alt, p1) <- parseAlternative (parseDisjunction fuel') (S (String.length p)) p ;;
      match p1 with
      | String "|" p2 =>
          '(d, p3) <- parseDisjunction fuel' p2 ;;
          Some (RAlt alt d, p3)
      | _ => Some (alt, p1)
      end
  end.

(** [new RegExp(pattern, 'g')] *)
Definition RegExp (pattern : string) : option Regex :=
  '(r, rest) <- parseDisjunction (S (String.length pattern)) pattern ;;
  match rest with
  | EmptyString => Some r
  | _ => None
  end.

(** *** Matching

    A backtracking matcher in continuation style, with the priorities of
    the language: the left alternative first, quantifiers greedy.  The
    input is the suffix of the subject string at the current index;
    [total] is the length of the whole subject, so that [^] can tell
    index zero.  The result is the suffix left after the match. *)

Definition isLineTerminator (c : ascii) : bool :=
  Ascii.eqb c "010" || Ascii.eqb c "013".

Definition inRanges (c : ascii) (ranges : list (ascii * ascii)) : bool :=
  existsb (fun r => (nat_of_ascii (fst r) <=? nat_of_ascii c)%nat
                    && (nat_of_ascii c <=? nat_of_ascii (snd r))%nat) ranges.

Definition shorter (s1 s2 : string) : bool :=
  (String.length s1 <? String.length s2)%nat.

Fixpoint matchRe (r : Regex) (total : nat) (inp : string)
    (k : string -> option string) {struct r} : option string :=
  match r with
  | REmpty => k inp
  | RChar c =>
      match inp with
      | String c' rest => if Ascii.eqb c c' then k rest else None
      | EmptyString => None
      end
  | RAny =>
      match inp with
      | String c' rest => if isLineTerminator c' then None else k rest
      | EmptyString => None
      end
  | RBol => if (String.length inp =? total)%nat then k inp else None
  | REol =>
      match inp with
      | EmptyString => k inp
      | _ => None
      end
  | RClass negated ranges =>
      match inp with
      | String c' rest => if xorb negated (inRanges c' ranges) then k rest else None
      | EmptyString => None
      end
  | RSeq r1 r2 => matchRe r1 total inp (fun rest => matchRe r2 total rest k)
  | RAlt r1 r2 =>
      match matchRe r1 total inp k with
      | Some res => Some res
      | None => matchRe r2 total inp k
      end
  | RStar r1 =>
      (fix star (fuel : nat) (inp : string) {struct fuel} : option string :=
         match fuel with
         | O => k inp
         | S fuel' =>
             match matchRe r1 total inp
                     (fun rest => if shorter rest inp then star fuel' rest else None) with
             | Some res => Some res
             | None => k inp
             end
         end) (S (String.length inp)) inp
  | RPlus r1 =>
      matchRe r1 total inp (fun rest0 =>
        (fix star (fuel : nat) (inp : string) {struct fuel} : option string :=
           match fuel with
           | O => k inp
           | S fuel' =>
               match matchRe r1 total inp
                       (fun rest => if shorter rest inp then star fuel' rest else None) with
               | Some res => Some res
               | None => k inp
               end
           end) (S (String.length rest0)) rest0)
  | ROpt r1 =>
      match matchRe r1 total inp (fun rest => if shorter rest inp then k rest else None) with
      | Some res => Some res
      | None => k inp
      end
  end.

(** *** Replacement templates

    [$$] is a dollar sign and [$&] the matched text.  The forms that need
    the text around the match or a capture are outside the fragment. *)

Inductive ReplItem : Type :=
| Lit (c : ascii)
| Matched.

Fixpoint parseReplacement (t : string) : option (list ReplItem) :=
  match t with
  | EmptyString => Some []
  | String "$" (String "$" rest) =>
      items <- parseReplacement rest ;; Some (Lit "$" :: items)
  | String "$" (String "&" rest) =>
      items <- parseReplacement rest ;; Some (Matched :: items)
  | String "$" (String c rest) =>
      if Ascii.eqb c "`" || Ascii.eqb c "'" || Ascii.eqb c "<"
         || ((48 <=? nat_of_ascii c)%nat && (nat_of_ascii c <=? 57)%nat)
      then None
      else items <- parseReplacement rest ;; Some (Lit "$" :: Lit c :: items)
  | String c rest =>
      items <- parseReplacement rest ;; Some (Lit c :: items)
  end.

Fixpoint getSubstitution (matched : string) (items : list ReplItem) : string :=
  match items with
  | [] => EmptyString
  | Lit c :: items' => String c (getSubstitution matched items')
  | Matched :: items' => matched ++ getSubstitution matched items'
  end.

(** *** [subject.replace(regex, template)] with the global flag

    The search restarts at [lastIndex] after each match and one position
    further after an empty match; a position where nothing matches keeps
    its character.  [skip] counts the characters of the current match
    still to be dropped. *)

Fixpoint replaceFrom (re : Regex) (tmpl : list ReplItem) (total : nat)
    (skip : nat) (inp : string) {struct inp} : string :=
  match skip with
  | S skip' =>
      match inp with
      | String _ tl => replaceFrom re tmpl total skip' tl
      | EmptyString => EmptyString
      end
  | O =>
      match matchRe re total inp (fun rest => Some rest) with
      | Some rest =>
          let n := (String.length inp - String.length rest)%nat in
          getSubstitution (JsString.take n inp) tmpl ++
          match inp with
          | String c tl =>
              match n with
              | O => String c (replaceFrom re tmpl total O tl)
              | S n' => replaceFrom re tmpl total n' tl
              end
          | EmptyString => EmptyString
          end
      | None =>
          match inp with
          | String c tl => String c (replaceFrom re tmpl total O tl)
          | EmptyString => EmptyString
          end
      end
  end.

Definition replace (subject : string) (re : Regex) (tmpl : list ReplItem) : string :=
  replaceFrom re tmpl (String.length subject) O subject.

(** A regular expression literal [/source/g] and a string literal used
    as a replacement template: both are fixed when the program is loaded,
    so neither can fail at run time (see [escapePattern_parses] and
    [escapeTemplate_parses] for the two the code contains). *)
Definition literal (source : string) : Regex :=
  match RegExp source with
  | Some r => r
  | None => REmpty
  end.

Definition template (source : string) : list ReplItem :=
  match parseReplacement source with
  | Some t => t
  | None => []
  end.

End JsRegExp.

(** ** Data model *)

Module StandardTokenType.
Inductive t : Type := Other | Comment | String | RegEx.

Definition eqb (a b : t) : bool :=
  match a, b with
  | Other, Other | Comment, Comment | String, String | RegEx, RegEx => true
  | _, _ => false
  end.
End StandardTokenType.

(** [IViewLineTokens]: the operations of a token stream that the line
    processor calls.  Token indices are [nat]; [forEach] visits
    [0 .. getCount - 1] in order. *)
Record IViewLineTokens : Type := {
  getCount : nat;
  getStandardTokenType : nat -> StandardTokenType.t;
  getLanguageId : nat -> string;
  getTokenText : nat -> string;
  getLineContent : string
}.

Definition forEach {A : Type} (tokens : IViewLineTokens)
    (callback : A -> nat -> option A) (init : A) : option A :=
  fold_left (fun acc tokenIndex => a <- acc ;; callback a tokenIndex)
            (seq 0 (getCount tokens)) (Some init).

(** A bracket pair of the language configuration: each side may have
    several spellings. *)
Record RichEditBracket : Type := {
  open : list string;
  close : list string
}.

Module RichEditBrackets.

Record t : Type := {
  brackets : list RichEditBracket
}.

End RichEditBrackets.

(** The resolved configuration of a language; [brackets] is [None] (null)
    when the language has no bracket configuration. *)
Module ResolvedLanguageConfiguration.

Record t : Type := {
  brackets : option RichEditBrackets.t
}.

End ResolvedLanguageConfiguration.

Record ILanguageConfigurationService : Type := {
  getLanguageConfiguration : string -> ResolvedLanguageConfiguration.t
}.

(** Modelled from the spec: the token stream of one line ([LineTokens],
    declared outside this file).  "Each token has a start offset, a
    classification, a language id, and derivable text (via slicing the line
    by offsets)"; a token ends where the next one starts, the last one at
    the end of the line. *)
Record Token : Type := {
  tokenStartOffset : Z;
  tokenType : StandardTokenType.t;
  tokenLanguageId : string
}.

Record LineTokens : Type := {
  lineText : string;
  lineTokens : list Token
}.

Module LineTokens.

Definition tokenAt (lt : LineTokens) (tokenIndex : nat) : Token :=
  nth tokenIndex (lineTokens lt)
      {| tokenStartOffset := JsString.length (lineText lt);
         tokenType := StandardTokenType.Other;
         tokenLanguageId := EmptyString |}.

Definition getStartOffset (lt : LineTokens) (tokenIndex : nat) : Z :=
  tokenStartOffset (tokenAt lt tokenIndex).

Definition getEndOffset (lt : LineTokens) (tokenIndex : nat) : Z :=
  tokenStartOffset (tokenAt lt (S tokenIndex)).

(** [LineTokens] implements [IViewLineTokens]. *)
Definition view (lt : LineTokens) : IViewLineTokens := {|
  getCount := List.length (lineTokens lt);
  getStandardTokenType := fun i => tokenType (tokenAt lt i);
  getLanguageId := fun i => tokenLanguageId (tokenAt lt i);
  getTokenText := fun i =>
    JsString.substring (lineText lt) (getStartOffset lt i) (getEndOffset lt i);
  getLineContent := lineText lt
|}.

(** "Tokens are contiguous and cover the full line with no gaps or
    overlaps": the first token starts at offset zero, start offsets do not
    decrease and none lies beyond the end of the line. *)
Fixpoint ascending (from : Z) (offsets : list Z) (upto : Z) : bool :=
  match offsets with
  | [] => (from <=? upto)%Z
  | o :: rest => (from <=? o)%Z && ascending o rest upto
  end.

Definition wellFormed (lt : LineTokens) : bool :=
  match map tokenStartOffset (lineTokens lt) with
  | [] => false
  | o :: rest => (o =? 0)%Z && ascending o rest (JsString.length (lineText lt))
  end.

End LineTokens.

(** The text of the tokens of a stream, in order. *)
Definition tokenTexts (tokens : IViewLineTokens) : list string :=
  map (getTokenText tokens) (seq 0 (getCount tokens)).

(** The invariant above, as seen through [IViewLineTokens]: the line is the
    concatenation of the token texts. *)
Definition coversLine (tokens : IViewLineTokens) : Prop :=
  getLineContent tokens = JsString.join (tokenTexts tokens).

(** Modelled from the spec: a scoped token stream ([ScopedLineTokens],
    declared outside this file) "carries the language id of that region and
    whether the region begins at column 0 of the line"; it covers the
    columns [firstCharOffset, firstCharOffset + len). *)
Module ScopedLineTokens.

Record t : Type := {
  languageId : string;
  firstCharOffset : Z;
  getLineContent : string
}.

Definition doesScopeStartAtOffsetZero (s : t) : bool :=
  (firstCharOffset s =? 0)%Z.

End ScopedLineTokens.

(** Modelled from the spec: a range ([Range], declared outside this file) is
    "a span over (line, column) pairs", collapsed when start and end are the
    same position. *)
Module Range.

Record t : Type := {
  startLineNumber : Z;
  startColumn : Z;
  endLineNumber : Z;
  endColumn : Z
}.

Definition isEmpty (r : t) : bool :=
  (startLineNumber r =? endLineNumber r)%Z && (startColumn r =? endColumn r)%Z.

End Range.

(** [IndentRulesSupport]: the four predicates of the rule evaluator. *)
Module IndentRulesSupport.

Record t : Type := {
  shouldIncrease : string -> bool;
  shouldDecrease : string -> bool;
  shouldIgnore : string -> bool;
  shouldIndentNextLine : string -> bool
}.

End IndentRulesSupport.

(** [IVirtualModel]: what the line processor reads from the model,
    [model.tokenization.getLineTokens]. *)
Module IVirtualModel.

Record t : Type := {
  getLineTokens : Z -> LineTokens
}.

End IVirtualModel.

(** [ITextModel]: the model the context processor works on.
    [tokenization.forceTokenization] changes the state of the tokenizer, so
    the state is threaded through; [tokenization.getLineTokens] and
    [getLineMaxColumn] read it. *)
Module ITextModel.

Record t (State : Type) : Type := {
  forceTokenization : Z -> State -> State;
  getLineTokens : State -> Z -> LineTokens;
  getLineMaxColumn : State -> Z -> Z
}.

End ITextModel.

(** ** IndentationLineProcessor *)

Module IndentationLineProcessor.
Import JsRegExp.

Definition isTokenTypeToProcess (tokenType : StandardTokenType.t) : bool :=
  StandardTokenType.eqb tokenType StandardTokenType.String
  || StandardTokenType.eqb tokenType StandardTokenType.RegEx
  || StandardTokenType.eqb tokenType StandardTokenType.Comment.

(** [/[.*+?^${}()|[\]\\]/g] and ['\\$&'] *)
Definition escapePattern : Regex := literal "[.*+?^${}()|[\]\\]".
Definition escapeTemplate : list ReplItem := template "\$&".

Definition escapeCharacterForRegex (character : string) : string :=
  replace character escapePattern escapeTemplate.

(** [for (const chr of text) res += escapeCharacterForRegex(chr)] *)
Fixpoint escapeStringForRegex (text : string) : string :=
  match text with
  | EmptyString => EmptyString
  | String chr rest =>
      escapeCharacterForRegex (String chr EmptyString) ++ escapeStringForRegex rest
  end.

(** One turn of either [forEach] of [removeBracketsFromText]. *)
Definition removeBracket (processedLine : string) (bracket : string) : option string :=
  regex <- RegExp (escapeStringForRegex bracket) ;;
  Some (replace processedLine regex (template "")).

Definition removeBracketsFromText (openBrackets closedBrackets : list string)
    (line : string) : option string :=
  let processedLine := Some line in
  let processedLine :=
    fold_left (fun acc bracket => l <- acc ;; removeBracket l bracket)
              openBrackets processedLine in
  let processedLine :=
    fold_left (fun acc bracket => l <- acc ;; removeBracket l bracket)
              closedBrackets processedLine in
  processedLine.

Definition getProcessedLineForTokens (svc : ILanguageConfigurationService)
    (tokens : IViewLineTokens) : option string :=
  let languageId := getLanguageId tokens 0 in
  let brackets :=
    ResolvedLanguageConfiguration.brackets (getLanguageConfiguration svc languageId) in
  match brackets with
  | None => Some (getLineContent tokens)
  | Some brackets =>
      let openBrackets := List.concat (map open (RichEditBrackets.brackets brackets)) in
      let closedBrackets := List.concat (map close (RichEditBrackets.brackets brackets)) in
      forEach tokens
        (fun processedLine tokenIndex =>
           let tokenType := getStandardTokenType tokens tokenIndex in
           let text := getTokenText tokens tokenIndex in
           if isTokenTypeToProcess tokenType then
             removed <- removeBracketsFromText openBrackets closedBrackets text ;;
             Some (processedLine ++ removed)
           else Some (processedLine ++ text))
        EmptyString
  end.

(** Modelled from the spec: [strings.getLeadingWhitespace], declared
    outside this file, gives the "leading whitespace run" of a line.  Which
    characters count as whitespace is left to [isWhitespace]. *)
Fixpoint getLeadingWhitespace (isWhitespace : ascii -> bool) (str : string) : string :=
  match str with
  | String c rest =>
      if isWhitespace c then String c (getLeadingWhitespace isWhitespace rest)
      else EmptyString
  | EmptyString => EmptyString
  end.

Definition adjustIndentation (isWhitespace : ascii -> bool)
    (line newIndentation : string) : string :=
  let currentIndentation := getLeadingWhitespace isWhitespace line in
  let adjustedLine :=
    newIndentation ++ JsString.substringFrom line (JsString.length currentIndentation) in
  adjustedLine.

Definition getProcessedLine (isWhitespace : ascii -> bool) (model : IVirtualModel.t)
    (svc : ILanguageConfigurationService)
    (lineNumber : Z) (newIndentation : option string) : option string :=
  let tokens := IVirtualModel.getLineTokens model lineNumber in
  processedLine <- getProcessedLineForTokens svc (LineTokens.view tokens) ;;
  match newIndentation with
  | Some indentation => Some (adjustIndentation isWhitespace processedLine indentation)
  | None => Some processedLine
  end.

End IndentationLineProcessor.

(** ** ProcessedIndentRulesSupport *)

Module ProcessedIndentRulesSupport.

Section Facade.
Variable isWhitespace : ascii -> bool.
Variable model : IVirtualModel.t.
Variable indentRulesSupport : IndentRulesSupport.t.
Variable languageConfigurationService : ILanguageConfigurationService.

Definition shouldIncrease (lineNumber : Z) (newIndentation : option string) : option bool :=
  processedLine <- IndentationLineProcessor.getProcessedLine isWhitespace model
                     languageConfigurationService lineNumber newIndentation ;;
  Some (IndentRulesSupport.shouldIncrease indentRulesSupport processedLine).

Definition shouldDecrease (lineNumber : Z) (newIndentation : option string) : option bool :=
  processedLine <- IndentationLineProcessor.getProcessedLine isWhitespace model
                     languageConfigurationService lineNumber newIndentation ;;
  Some (IndentRulesSupport.shouldDecrease indentRulesSupport processedLine).

Definition shouldIgnore (lineNumber : Z) (newIndentation : option string) : option bool :=
  processedLine <- IndentationLineProcessor.getProcessedLine isWhitespace model
                     languageConfigurationService lineNumber newIndentation ;;
  Some (IndentRulesSupport.shouldIgnore indentRulesSupport processedLine).

Definition shouldIndentNextLine (lineNumber : Z) (newIndentation : option string) : option bool :=
  processedLine <- IndentationLineProcessor.getProcessedLine isWhitespace model
                     languageConfigurationService lineNumber newIndentation ;;
  Some (IndentRulesSupport.shouldIndentNextLine indentRulesSupport processedLine).

End Facade.

End ProcessedIndentRulesSupport.

(** ** IndentationContextProcessor

    A computation reads and updates the tokenizer state and may fail. *)

Definition Comp (State A : Type) : Type := State -> option (A * State).

Definition ret {State A : Type} (a : A) : Comp State A := fun st => Some (a, st).

Definition bindC {State A B : Type} (m : Comp State A) (f : A -> Comp State B)
  : Comp State B :=
  fun st => match m st with
            | Some (a, st') => f a st'
            | None => None
            end.

Definition liftC {State A : Type} (m : option A) : Comp State A :=
  fun st => match m with
            | Some a => Some (a, st)
            | None => None
            end.

Notation "x <~ m ;; k" := (bindC m (fun x => k))
  (at level 61, m at next level, right associativity).
Notation "' p <~ m ;; k" := (bindC m (fun x => let p := x in k))
  (at level 61, p pattern, m at next level, right associativity).

Module IndentationContextProcessor.

Record Context : Type := {
  beforeRangeText : string;
  afterRangeText : string;
  previousLineText : string
}.

Section Processor.
Variable State : Type.
Variable model : ITextModel.t State.
Variable languageConfigurationService : ILanguageConfigurationService.

(** [createScopedLineTokens] and [LineTokens.sliceAndInflate] are declared
    outside this file. *)
Variable createScopedLineTokens : LineTokens -> Z -> ScopedLineTokens.t.
Variable sliceAndInflate : LineTokens -> Z -> Z -> Z -> IViewLineTokens.

Definition forceTokenizationC (lineNumber : Z) : Comp State unit :=
  fun st => Some (tt, ITextModel.forceTokenization model lineNumber st).

Definition getLineTokensC (lineNumber : Z) : Comp State LineTokens :=
  fun st => Some (ITextModel.getLineTokens model st lineNumber, st).

Definition getLineMaxColumnC (lineNumber : Z) : Comp State Z :=
  fun st => Some (ITextModel.getLineMaxColumn model st lineNumber, st).

Definition getProcessedLineForTokensC (tokens : IViewLineTokens) : Comp State string :=
  liftC (IndentationLineProcessor.getProcessedLineForTokens
           languageConfigurationService tokens).

Definition _getProcessedTextBeforeRange (range : Range.t)
    (scopedLineTokens : ScopedLineTokens.t) : Comp State string :=
  lineTokens <~ getLineTokensC (Range.startLineNumber range) ;;
  let columnIndexWithinScope :=
    ((Range.startColumn range - 1) - ScopedLineTokens.firstCharOffset scopedLineTokens)%Z in
  let firstCharacterOffset := ScopedLineTokens.firstCharOffset scopedLineTokens in
  let lastCharacterOffset :=
    (ScopedLineTokens.firstCharOffset scopedLineTokens + columnIndexWithinScope)%Z in
  let slicedTokensBefore :=
    sliceAndInflate lineTokens firstCharacterOffset lastCharacterOffset 0%Z in
  getProcessedLineForTokensC slicedTokensBefore.

Definition _getProcessedTextAfterRange (range : Range.t)
    (scopedLineTokens : ScopedLineTokens.t) : Comp State string :=
  '(columnIndexWithinScope, lineTokens) <~
    (if Range.isEmpty range then
       lineTokens <~ getLineTokensC (Range.startLineNumber range) ;;
       ret (((Range.startColumn range - 1)
             - ScopedLineTokens.firstCharOffset scopedLineTokens)%Z, lineTokens)
     else
       lineTokens <~ getLineTokensC (Range.endLineNumber range) ;;
       ret (((Range.endColumn range - 1)
             - ScopedLineTokens.firstCharOffset scopedLineTokens)%Z, lineTokens)) ;;
  let scopedLineContent := ScopedLineTokens.getLineContent scopedLineTokens in
  let firstCharacterOffset :=
    (ScopedLineTokens.firstCharOffset scopedLineTokens + columnIndexWithinScope)%Z in
  let lastCharacterOffset :=
    (ScopedLineTokens.firstCharOffset scopedLineTokens
     + JsString.length scopedLineContent)%Z in
  let slicedTokensAfter :=
    sliceAndInflate lineTokens firstCharacterOffset lastCharacterOffset 0%Z in
  getProcessedLineForTokensC slicedTokensAfter.

Definition getScopedLineTokensAtEndColumnOfLine (lineNumber : Z)
  : Comp State ScopedLineTokens.t :=
  _ <~ forceTokenizationC lineNumber ;;
  lineTokens <~ getLineTokensC lineNumber ;;
  maxColumn <~ getLineMaxColumnC lineNumber ;;
  let endColumnOfLine := (maxColumn - 1)%Z in
  let scopedLineTokensAtEndColumn := createScopedLineTokens lineTokens endColumnOfLine in
  ret scopedLineTokensAtEndColumn.

Definition getSlicedLineTokensForScopeAtLine (scopedLineTokens : ScopedLineTokens.t)
    (lineNumber : Z) : Comp State IViewLineTokens :=
  initialLine <~ getLineTokensC lineNumber ;;
  let scopedLine := ScopedLineTokens.getLineContent scopedLineTokens in
  let firstCharacterOffset := ScopedLineTokens.firstCharOffset scopedLineTokens in
  let lastCharacterOffset := (firstCharacterOffset + JsString.length scopedLine)%Z in
  let slicedLineTokens :=
    sliceAndInflate initialLine firstCharacterOffset lastCharacterOffset 0%Z in
  ret slicedLineTokens.

Definition _getProcessedPreviousLine (range : Range.t)
    (scopedLineTokens : ScopedLineTokens.t) : Comp State string :=
  let previousLineNumber := (Range.startLineNumber range - 1)%Z in
  let isFirstLine := (previousLineNumber =? 0)%Z in
  if isFirstLine then ret EmptyString
  else
    let canScopeExtendOnPreviousLine :=
      ScopedLineTokens.doesScopeStartAtOffsetZero scopedLineTokens in
    if negb canScopeExtendOnPreviousLine then ret EmptyString
    else
      scopedLineTokensAtEndColumnOfPreviousLine <~
        getScopedLineTokensAtEndColumnOfLine previousLineNumber ;;
      let doesLanguageContinueOnPreviousLine :=
        String.eqb (ScopedLineTokens.languageId scopedLineTokens)
          (ScopedLineTokens.languageId scopedLineTokensAtEndColumnOfPreviousLine) in
      if negb doesLanguageContinueOnPreviousLine then ret EmptyString
      else
        previousSlicedLineTokens <~
          getSlicedLineTokensForScopeAtLine
            scopedLineTokensAtEndColumnOfPreviousLine previousLineNumber ;;
        getProcessedLineForTokensC previousSlicedLineTokens.

Definition getProcessedContextAroundRange (range : Range.t) : Comp State Context :=
  _ <~ forceTokenizationC (Range.startLineNumber range) ;;
  lineTokens <~ getLineTokensC (Range.startLineNumber range) ;;
  let scopedLineTokens :=
    createScopedLineTokens lineTokens (Range.startColumn range - 1)%Z in
  beforeRangeText <~ _getProcessedTextBeforeRange range scopedLineTokens ;;
  afterRangeText <~ _getProcessedTextAfterRange range scopedLineTokens ;;
  previousLineText <~ _getProcessedPreviousLine range scopedLineTokens ;;
  ret {| beforeRangeText := beforeRangeText;
         afterRangeText := afterRangeText;
         previousLineText := previousLineText |}.

End Processor.

End IndentationContextProcessor.

(** ** Literal removal, as the specification words it

    "Remove every non-overlapping occurrence of the bracket string from the
    token's text, character for character": scanning from the left, an
    occurrence at the current position is dropped whole and the scan goes on
    after it; any other character is kept.  The empty string occurs
    everywhere and removing it changes nothing. *)

Module Literal.

Inductive RemovedAll (b : string) : string -> string -> Prop :=
| removed_end : RemovedAll b EmptyString EmptyString
| removed_occurrence (t t' : string) :
    b <> EmptyString ->
    RemovedAll b t t' ->
    RemovedAll b (b ++ t) t'
| removed_keep (c : ascii) (t t' : string) :
    b = EmptyString \/ JsString.startsWith b (String c t) = false ->
    RemovedAll b t t' ->
    RemovedAll b (String c t) (String c t').

(** The same scan as a function; [skip] is the number of characters of
    the occurrence under the cursor that are still to be dropped. *)
Fixpoint removeFrom (b : string) (skip : nat) (t : string) {struct t} : string :=
  match t with
  | EmptyString => EmptyString
  | String c tl =>
      match skip with
      | S skip' => removeFrom b skip' tl
      | O =>
          if JsString.startsWith b t then
            match String.length b with
            | O => String c (removeFrom b O tl)
            | S n => removeFrom b n tl
            end
          else String c (removeFrom b O tl)
      end
  end.

Definition removeAll (b t : string) : string := removeFrom b O t.

(** Open brackets first, then close brackets, each pass on the output of
    the pass before. *)
Definition removeBrackets (openBrackets closedBrackets : list string) (t : string) : string :=
  fold_left (fun acc b => removeAll b acc) (openBrackets ++ closedBrackets) t.

(** The regular expression that matches [b] and nothing else: one
    character node for each character of [b]. *)
Fixpoint literalRegex (b : string) : JsRegExp.Regex :=
  match b with
  | EmptyString => JsRegExp.REmpty
  | String c b' => JsRegExp.RSeq (JsRegExp.RChar c) (literalRegex b')
  end.

End Literal.

(** ** The sanitizer, as the specification words it

    "For each token in order: if its classification is String, Comment, or
    RegexLike, remove every non-overlapping occurrence of every bracket
    string (open and close) from the token's text.  Tokens of any other
    classification pass through verbatim.  Concatenate the token texts in
    original order." *)

Module Sanitizer.

Definition isLiteralLike (classification : StandardTokenType.t) : bool :=
  match classification with
  | StandardTokenType.String | StandardTokenType.Comment | StandardTokenType.RegEx => true
  | StandardTokenType.Other => false
  end.

(** "Look up its Bracket Pair Set." *)
Definition bracketPairSet (svc : ILanguageConfigurationService) (languageId : string)
  : option RichEditBrackets.t :=
  ResolvedLanguageConfiguration.brackets (getLanguageConfiguration svc languageId).

Definition openStrings (bs : RichEditBrackets.t) : list string :=
  flat_map open (RichEditBrackets.brackets bs).

Definition closeStrings (bs : RichEditBrackets.t) : list string :=
  flat_map close (RichEditBrackets.brackets bs).

Definition bracketStrings (bs : RichEditBrackets.t) : list string :=
  openStrings bs ++ closeStrings bs.

Definition sanitizedTokenText (bs : RichEditBrackets.t) (tokens : IViewLineTokens)
    (tokenIndex : nat) : string :=
  if isLiteralLike (getStandardTokenType tokens tokenIndex)
  then Literal.removeBrackets (openStrings bs) (closeStrings bs)
         (getTokenText tokens tokenIndex)
  else getTokenText tokens tokenIndex.

Definition sanitize (bs : RichEditBrackets.t) (tokens : IViewLineTokens) : string :=
  JsString.join (map (sanitizedTokenText bs tokens) (seq 0 (getCount tokens))).

(** No literal-like token holds an occurrence of one of the strings. *)
Definition literalsFreeOf (strings : list string) (tokens : IViewLineTokens) : bool :=
  forallb
    (fun tokenIndex =>
       negb (isLiteralLike (getStandardTokenType tokens tokenIndex))
       || forallb (fun b => negb (JsString.includes b (getTokenText tokens tokenIndex)))
            strings)
    (seq 0 (getCount tokens)).

(** The same stream with other language ids on the tokens after the
    first. *)
Definition relabelRest (tokens : IViewLineTokens) (languageIds : nat -> string)
  : IViewLineTokens := {|
  getCount := getCount tokens;
  getStandardTokenType := getStandardTokenType tokens;
  getLanguageId := fun i =>
    match i with
    | O => getLanguageId tokens 0
    | S _ => languageIds i
    end;
  getTokenText := getTokenText tokens;
  getLineContent := getLineContent tokens
|}.

(** The line without its leading whitespace run. *)
Fixpoint withoutLeadingWhitespace (isWhitespace : ascii -> bool) (line : string) : string :=
  match line with
  | String c rest =>
      if isWhitespace c then withoutLeadingWhitespace isWhitespace rest else line
  | EmptyString => EmptyString
  end.

End Sanitizer.

(** ** Sample documents *)

Module Examples.

Definition tok (offset : Z) (type : StandardTokenType.t) (languageId : string) : Token :=
  {| tokenStartOffset := offset; tokenType := type; tokenLanguageId := languageId |}.

(** Round, square and curly brackets for [javascript]; no bracket
    configuration for any other language. *)
Definition jsBrackets : RichEditBrackets.t :=
  {| RichEditBrackets.brackets := [ {| open := ["{"]; close := ["}"] |};
                   {| open := ["["]; close := ["]"] |};
                   {| open := ["("]; close := [")"] |} ] |}.

Definition htmlBrackets : RichEditBrackets.t :=
  {| RichEditBrackets.brackets := [ {| open := ["<!--"]; close := ["-->"] |};
                   {| open := ["<"]; close := [">"] |} ] |}.

Definition svc : ILanguageConfigurationService :=
  {| getLanguageConfiguration := fun languageId =>
       {| ResolvedLanguageConfiguration.brackets :=
            if String.eqb languageId "javascript" then Some jsBrackets
            else if String.eqb languageId "html" then Some htmlBrackets
            else None |} |}.

(** [f('(') { // }]: a call, a string, a block opener and a comment. *)
Definition callLine : LineTokens :=
  {| lineText := "f('(') { // }";
     lineTokens := [ tok 0 StandardTokenType.Other "javascript";
                     tok 2 StandardTokenType.String "javascript";
                     tok 5 StandardTokenType.Other "javascript";
                     tok 9 StandardTokenType.Comment "javascript" ] |}.

(** Brackets only outside the literal-like tokens. *)
Definition cleanLine : LineTokens :=
  {| lineText := "f(a[0]) + 'b' // c";
     lineTokens := [ tok 0 StandardTokenType.Other "javascript";
                     tok 10 StandardTokenType.String "javascript";
                     tok 13 StandardTokenType.Other "javascript";
                     tok 14 StandardTokenType.Comment "javascript" ] |}.

(** A plain-text line that embeds a [javascript] string. *)
Definition plainFirstLine : LineTokens :=
  {| lineText := "see '(x)'";
     lineTokens := [ tok 0 StandardTokenType.Other "plaintext";
                     tok 4 StandardTokenType.String "javascript" ] |}.

(** A [javascript] line that embeds a plain-text string. *)
Definition jsFirstLine : LineTokens :=
  {| lineText := "g('(x)')";
     lineTokens := [ tok 0 StandardTokenType.Other "javascript";
                     tok 2 StandardTokenType.String "plaintext";
                     tok 7 StandardTokenType.Other "javascript" ] |}.

(** The tail of a block comment, then code: [  } */ foo(]. *)
Definition commentTailLine : LineTokens :=
  {| lineText := "  } */ foo(";
     lineTokens := [ tok 0 StandardTokenType.Comment "javascript";
                     tok 6 StandardTokenType.Other "javascript" ] |}.

(** [callLine] with other brackets inside its string and its comment. *)
Definition callLineNoisy : LineTokens :=
  {| lineText := "f('[{') { // )(";
     lineTokens := [ tok 0 StandardTokenType.Other "javascript";
                     tok 2 StandardTokenType.String "javascript";
                     tok 6 StandardTokenType.Other "javascript";
                     tok 10 StandardTokenType.Comment "javascript" ] |}.

Definition indentedLine : LineTokens :=
  {| lineText := "  foo()";
     lineTokens := [ tok 0 StandardTokenType.Other "javascript" ] |}.

Definition emptyLine : LineTokens :=
  {| lineText := "";
     lineTokens := [ tok 0 StandardTokenType.Other "javascript" ] |}.

Definition document : IVirtualModel.t :=
  {| IVirtualModel.getLineTokens := fun lineNumber =>
       match lineNumber with
       | 1%Z => callLine
       | 2%Z => cleanLine
       | 3%Z => commentTailLine
       | 4%Z => indentedLine
       | _ => emptyLine
       end |}.

(** *** Stand-ins for the collaborators of the context processor

    Modelled from the spec: the scope resolver "given a token stream and a
    column, returns a scoped token stream (firstCharOffset, language id,
    content)", a scope being "a contiguous column range of one line
    attributed to a single language"; slicing gives "a new token stream
    preserving classifications", clipped to the line.  These two stand in
    for [createScopedLineTokens] and [sliceAndInflate] in the examples
    only. *)

Definition findTokenIndexAtOffset (lt : LineTokens) (offset : Z) : nat :=
  pred (List.length
          (filter (fun t => (tokenStartOffset t <=? offset)%Z) (lineTokens lt))).

Fixpoint scopeFirstIndex (lt : LineTokens) (languageId : string) (index : nat) : nat :=
  match index with
  | O => O
  | S index' =>
      if String.eqb (tokenLanguageId (LineTokens.tokenAt lt index')) languageId
      then scopeFirstIndex lt languageId index'
      else index
  end.

Fixpoint scopeLastIndex (lt : LineTokens) (languageId : string)
    (fuel index : nat) : nat :=
  match fuel with
  | O => index
  | S fuel' =>
      if (S index <? List.length (lineTokens lt))%nat
         && String.eqb (tokenLanguageId (LineTokens.tokenAt lt (S index))) languageId
      then scopeLastIndex lt languageId fuel' (S index)
      else index
  end.

Definition resolveScope (lt : LineTokens) (offset : Z) : ScopedLineTokens.t :=
  let index := findTokenIndexAtOffset lt offset in
  let languageId := tokenLanguageId (LineTokens.tokenAt lt index) in
  let first := scopeFirstIndex lt languageId index in
  let last := scopeLastIndex lt languageId (List.length (lineTokens lt)) index in
  {| ScopedLineTokens.languageId := languageId;
     ScopedLineTokens.firstCharOffset := LineTokens.getStartOffset lt first;
     ScopedLineTokens.getLineContent :=
       JsString.substring (lineText lt) (LineTokens.getStartOffset lt first)
         (LineTokens.getEndOffset lt last) |}.

Definition clamp (lt : LineTokens) (offset : Z) : Z :=
  Z.min (Z.max offset 0) (JsString.length (lineText lt)).

Definition sliceTokens (lt : LineTokens) (startOffset endOffset deltaOffset : Z)
  : IViewLineTokens :=
  let a := clamp lt startOffset in
  let b := Z.max a (clamp lt endOffset) in
  let inside :=
    filter (fun i => (LineTokens.getStartOffset lt i <? b)%Z
                     && (a <? LineTokens.getEndOffset lt i)%Z)
           (seq 0 (List.length (lineTokens lt))) in
  let kept :=
    match inside with
    | [] => [findTokenIndexAtOffset lt a]
    | _ => inside
    end in
  LineTokens.view
    {| lineText := JsString.substring (lineText lt) a b;
       lineTokens :=
         map (fun i =>
                let t := LineTokens.tokenAt lt i in
                tok (Z.max (tokenStartOffset t) a - a + deltaOffset)
                    (tokenType t) (tokenLanguageId t))
             kept |}.

(** [<script>f('(');], [g('[') }] and [<b>x</b><script>h(]: a script that
    starts on line 1 and runs to the end of line 2, and another one opened
    in the middle of line 3. *)
Definition scriptOpenLine : LineTokens :=
  {| lineText := "<script>f('(');";
     lineTokens := [ tok 0 StandardTokenType.Other "html";
                     tok 8 StandardTokenType.Other "javascript";
                     tok 10 StandardTokenType.String "javascript";
                     tok 13 StandardTokenType.Other "javascript" ] |}.

Definition scriptBodyLine : LineTokens :=
  {| lineText := "g('[') }";
     lineTokens := [ tok 0 StandardTokenType.Other "javascript";
                     tok 2 StandardTokenType.String "javascript";
                     tok 5 StandardTokenType.Other "javascript" ] |}.

Definition scriptMidLine : LineTokens :=
  {| lineText := "<b>x</b><script>h(";
     lineTokens := [ tok 0 StandardTokenType.Other "html";
                     tok 16 StandardTokenType.Other "javascript" ] |}.

Definition markupLine : LineTokens :=
  {| lineText := "<p>";
     lineTokens := [ tok 0 StandardTokenType.Other "html" ] |}.

Definition pageLine (lineNumber : Z) : LineTokens :=
  match lineNumber with
  | 1%Z => scriptOpenLine
  | 2%Z => scriptBodyLine
  | 3%Z => scriptMidLine
  | _ => markupLine
  end.

(** The tokenizer has worked its way down to some line; a line below that
    still shows as one token of the host language. *)
Definition page : ITextModel.t Z :=
  {| ITextModel.forceTokenization :=
       fun lineNumber tokenizedUpTo => Z.max lineNumber tokenizedUpTo;
     ITextModel.getLineTokens := fun tokenizedUpTo lineNumber =>
       if (lineNumber <=? tokenizedUpTo)%Z then pageLine lineNumber
       else {| lineText := lineText (pageLine lineNumber);
               lineTokens := [ tok 0 StandardTokenType.Other "html" ] |};
     ITextModel.getLineMaxColumn := fun _ lineNumber =>
       (JsString.length (lineText (pageLine lineNumber)) + 1)%Z |}.

Definition caret (lineNumber column : Z) : Range.t :=
  {| Range.startLineNumber := lineNumber; Range.startColumn := column;
     Range.endLineNumber := lineNumber; Range.endColumn := column |}.

Definition contextAround (range : Range.t) (tokenizedUpTo : Z)
  : option (IndentationContextProcessor.Context * Z) :=
  IndentationContextProcessor.getProcessedContextAroundRange
    page svc resolveScope sliceTokens range tokenizedUpTo.

Definition noisyDocument : IVirtualModel.t :=
  {| IVirtualModel.getLineTokens := fun lineNumber =>
       match lineNumber with
       | 1%Z => callLine
       | _ => callLineNoisy
       end |}.

(** An evaluator that looks for curly brackets. *)
Definition curlyRules : IndentRulesSupport.t :=
  {| IndentRulesSupport.shouldIncrease := fun line => JsString.includes "{" line;
     IndentRulesSupport.shouldDecrease := fun line => JsString.includes "}" line;
     IndentRulesSupport.shouldIgnore := fun line => JsString.startsWith "//" line;
     IndentRulesSupport.shouldIndentNextLine := fun line => JsString.includes "(" line |}.

Definition tab : ascii := "009"%char.

Definition isSpaceOrTab (c : ascii) : bool :=
  Ascii.eqb c " " || Ascii.eqb c tab.

End Examples.

(** ** Vocabulary for further properties *)

Module Shape.

(** [s] is [t] with some characters left out: nothing added, nothing moved. *)
Inductive Subsequence : string -> string -> Prop :=
| sub_end : Subsequence EmptyString EmptyString
| sub_keep (c : ascii) (s t : string) :
    Subsequence s t -> Subsequence (String c s) (String c t)
| sub_drop (c : ascii) (s t : string) :
    Subsequence s t -> Subsequence s (String c t).

(** [t] without the characters that [dropped] picks. *)
Fixpoint withoutCharacters (dropped : ascii -> bool) (t : string) : string :=
  match t with
  | EmptyString => EmptyString
  | String c t' =>
      if dropped c then withoutCharacters dropped t'
      else String c (withoutCharacters dropped t')
  end.

Definition isSingleCharacter (b : string) : bool :=
  match b with
  | String _ EmptyString => true
  | _ => false
  end.

(** [c], as a string, is one of [bs]. *)
Definition isBracketCharacter (bs : list string) (c : ascii) : bool :=
  existsb (String.eqb (String c EmptyString)) bs.

Definition isNonEmpty (b : string) : bool :=
  match b with
  | EmptyString => false
  | String _ _ => true
  end.

(** The characters of the class in [escapeCharacterForRegex], in the order
    the source lists them. *)
Definition escapedCharacters : list ascii :=
  list_ascii_of_string ".*+?^${}()|[]\".

Definition isEscapedCharacter (c : ascii) : bool :=
  existsb (Ascii.eqb c) escapedCharacters.

Fixpoint hasAny (p : ascii -> bool) (s : string) : bool :=
  match s with
  | EmptyString => false
  | String c s' => p c || hasAny p s'
  end.

Fixpoint onlyOf (p : ascii -> bool) (s : string) : bool :=
  match s with
  | EmptyString => true
  | String c s' => p c && onlyOf p s'
  end.

(** The two lists hold the same strings, in whatever order and number. *)
Definition sameStrings (l l' : list string) : bool :=
  forallb (fun b => existsb (String.eqb b) l') l
  && forallb (fun b => existsb (String.eqb b) l) l'.

(** Two streams with as many tokens, of the same classifications, whose
    texts are the same once the characters that are bracket strings are
    left out of the tokens classified String, Comment or RegEx. *)
Definition sameButLiteralBrackets (bs : list string) (a b : IViewLineTokens) : bool :=
  (getCount a =? getCount b)%nat
  && forallb
       (fun i =>
          StandardTokenType.eqb (getStandardTokenType a i) (getStandardTokenType b i)
          && if Sanitizer.isLiteralLike (getStandardTokenType a i)
             then String.eqb
                    (withoutCharacters (isBracketCharacter bs) (getTokenText a i))
                    (withoutCharacters (isBracketCharacter bs) (getTokenText b i))
             else String.eqb (getTokenText a i) (getTokenText b i))
       (seq 0 (getCount a)).

(** A range from the given start to the given end. *)
Definition rangeFromTo (startLineNumber startColumn endLineNumber endColumn : Z)
  : Range.t :=
  {| Range.startLineNumber := startLineNumber;
     Range.startColumn := startColumn;
     Range.endLineNumber := endLineNumber;
     Range.endColumn := endColumn |}.

End Shape.

(** * Properties *)

Unset Implicit Arguments.

(** ** Strings *)

Section StringFacts.

Lemma append_nil_r (s : string) : s ++ "" = s.
Proof. induction s as [|c s IH]; simpl; [reflexivity | now rewrite IH]. Qed.

Lemma append_assoc (s1 s2 s3 : string) : (s1 ++ s2) ++ s3 = s1 ++ (s2 ++ s3).
Proof. induction s1 as [|c s1 IH]; simpl; [reflexivity | now rewrite IH]. Qed.

Lemma length_append (s1 s2 : string) :
  String.length (s1 ++ s2) = (String.length s1 + String.length s2)%nat.
Proof. induction s1 as [|c s1 IH]; simpl; [reflexivity | now rewrite IH]. Qed.

Lemma drop_append (s1 s2 : string) : JsString.drop (String.length s1) (s1 ++ s2) = s2.
Proof. induction s1 as [|c s1 IH]; simpl; [reflexivity | exact IH]. Qed.

Lemma take_append (s1 s2 : string) : JsString.take (String.length s1) (s1 ++ s2) = s1.
Proof.
  induction s1 as [|c s1 IH]; simpl.
  - destruct s2; reflexivity.
  - now rewrite IH.
Qed.

Lemma take_drop (n : nat) (s : string) : JsString.take n s ++ JsString.drop n s = s.
Proof.
  revert s; induction n as [|n IH]; intros [|c s]; simpl; try reflexivity.
  now rewrite IH.
Qed.

Lemma length_drop (n : nat) (s : string) :
  String.length (JsString.drop n s) = (String.length s - n)%nat.
Proof.
  revert s; induction n as [|n IH]; intros [|c s]; simpl; try reflexivity.
  apply IH.
Qed.

Lemma drop_all (n : nat) (s : string) :
  (String.length s <= n)%nat -> JsString.drop n s = "".
Proof.
  revert s; induction n as [|n IH]; intros [|c s]; simpl; intros H;
    try reflexivity; try lia.
  apply IH; lia.
Qed.

Lemma startsWith_append (b t : string) : JsString.startsWith b (b ++ t) = true.
Proof.
  induction b as [|c b IH]; simpl; [reflexivity|].
  now rewrite Ascii.eqb_refl, IH.
Qed.

Lemma startsWith_split (b s : string) :
  JsString.startsWith b s = true -> s = b ++ JsString.drop (String.length b) s.
Proof.
  revert s; induction b as [|c b IH]; intros s H; simpl in *; [reflexivity|].
  destruct s as [|d s]; [discriminate|].
  apply andb_prop in H as [Hc Hb].
  apply Ascii.eqb_eq in Hc; subst d.
  simpl. f_equal. now apply IH.
Qed.

Lemma startsWith_length (b s : string) :
  JsString.startsWith b s = true -> (String.length b <= String.length s)%nat.
Proof.
  intros H. rewrite (startsWith_split _ _ H), length_append. lia.
Qed.

(** [includes] finds exactly the occurrences of [b] as a substring. *)
Lemma includes_spec (b s : string) :
  JsString.includes b s = true <-> exists u v, s = u ++ b ++ v.
Proof.
  split.
  - induction s as [|c s IH]; simpl; intros H.
    + rewrite orb_false_r in H. exists "", "". simpl.
      destruct b; [reflexivity | discriminate].
    + apply orb_prop in H as [H|H].
      * exists "", (JsString.drop (String.length b) (String c s)).
        now apply startsWith_split.
      * destruct (IH H) as (u & v & ->). now exists (String c u), v.
  - intros (u & v & ->). induction u as [|c u IH]; simpl.
    + pose proof (startsWith_append b v) as H.
      destruct (b ++ v); simpl; now rewrite H.
    + rewrite IH. apply orb_true_r.
Qed.

Lemma take_all (s : string) : JsString.take (String.length s) s = s.
Proof. induction s as [|c s IH]; simpl; [reflexivity | now rewrite IH]. Qed.

Lemma drop_drop (n m : nat) (s : string) :
  JsString.drop (n + m) s = JsString.drop m (JsString.drop n s).
Proof.
  revert s; induction n as [|n IH]; intros s; [reflexivity|].
  destruct s as [|c s]; simpl; [now destruct m | apply IH].
Qed.

Lemma take_take_drop (m k : nat) (s : string) :
  JsString.take m s ++ JsString.take k (JsString.drop m s) = JsString.take (m + k) s.
Proof.
  revert s; induction m as [|m IH]; intros s; [reflexivity|].
  destruct s as [|c s]; simpl; [now destruct k | now rewrite IH].
Qed.

Lemma substring_inrange (s : string) (a b : Z) :
  (0 <= a <= b)%Z -> (b <= JsString.length s)%Z ->
  JsString.substring s a b = JsString.take (Z.to_nat (b - a)) (JsString.drop (Z.to_nat a) s).
Proof.
  intros Hab Hb. unfold JsString.substring, JsString.length in *.
  replace (Z.min (Z.max a 0) (Z.of_nat (String.length s))) with a by lia.
  replace (Z.min (Z.max b 0) (Z.of_nat (String.length s))) with b by lia.
  replace (Z.min a b) with a by lia. replace (Z.max a b) with b by lia.
  reflexivity.
Qed.

Lemma substring_whole (s : string) : JsString.substring s 0 (JsString.length s) = s.
Proof.
  rewrite substring_inrange by (unfold JsString.length; lia).
  unfold JsString.length. rewrite Z.sub_0_r, Nat2Z.id. apply take_all.
Qed.

Lemma substring_append (s : string) (a b c : Z) :
  (0 <= a <= b)%Z -> (b <= c)%Z -> (c <= JsString.length s)%Z ->
  JsString.substring s a b ++ JsString.substring s b c = JsString.substring s a c.
Proof.
  intros Hab Hbc Hc. rewrite !substring_inrange by lia.
  replace (Z.to_nat b) with (Z.to_nat a + Z.to_nat (b - a))%nat by lia.
  rewrite drop_drop, take_take_drop. f_equal. lia.
Qed.

End StringFacts.

(** ** The token stream invariant *)

Section TokenStreamFacts.

Lemma ascending_bound (from : Z) (offsets : list Z) (upto : Z) :
  LineTokens.ascending from offsets upto = true -> (from <= upto)%Z.
Proof.
  revert from; induction offsets as [|o rest IH]; simpl; intros from H.
  - now apply Z.leb_le.
  - apply andb_prop in H as [H1 H2]. apply Z.leb_le in H1. apply IH in H2. lia.
Qed.

Lemma pieces_join (text : string) (offsets : list Z) (from : Z) :
  (0 <= from)%Z ->
  LineTokens.ascending from offsets (JsString.length text) = true ->
  JsString.join
    (map (fun i => JsString.substring text
                     (nth i (from :: offsets) (JsString.length text))
                     (nth (S i) (from :: offsets) (JsString.length text)))
         (seq 0 (S (List.length offsets))))
  = JsString.substring text from (JsString.length text).
Proof.
  revert from; induction offsets as [|o rest IH]; intros from Hfrom Hasc.
  - simpl. apply append_nil_r.
  - cbn [LineTokens.ascending] in Hasc. apply andb_prop in Hasc as [Hle Hrest].
    apply Z.leb_le in Hle. pose proof (ascending_bound _ _ _ Hrest) as Hup.
    cbn [List.length]. rewrite <- cons_seq, <- seq_shift, map_cons, map_map.
    cbn [JsString.join fold_right].
    change (fold_right append "" ?l) with (JsString.join l).
    rewrite (map_ext _
               (fun i => JsString.substring text
                           (nth i (o :: rest) (JsString.length text))
                           (nth (S i) (o :: rest) (JsString.length text))))
      by (intros i; reflexivity).
    rewrite (IH o) by (assumption || lia). cbn [nth].
    apply substring_append; lia.
Qed.

(** A well-formed line is the concatenation of its token texts. *)
Lemma wellFormed_coversLine (lt : LineTokens) :
  LineTokens.wellFormed lt = true -> coversLine (LineTokens.view lt).
Proof.
  unfold LineTokens.wellFormed, coversLine, tokenTexts. cbn [getLineContent getCount getTokenText LineTokens.view].
  intros H.
  assert (Hnth : forall i,
            tokenStartOffset (LineTokens.tokenAt lt i) =
            nth i (map tokenStartOffset (lineTokens lt)) (JsString.length (lineText lt))).
  { intros i. unfold LineTokens.tokenAt.
    symmetry.
    exact (map_nth tokenStartOffset (lineTokens lt)
             {| tokenStartOffset := JsString.length (lineText lt);
                tokenType := StandardTokenType.Other;
                tokenLanguageId := "" |} i). }
  unfold LineTokens.getStartOffset, LineTokens.getEndOffset.
  erewrite map_ext by (intros i; rewrite 2!Hnth; reflexivity).
  rewrite <- (length_map tokenStartOffset).
  destruct (map tokenStartOffset (lineTokens lt)) as [|o rest]; [discriminate|].
  apply andb_prop in H as [H0 Hasc]. apply Z.eqb_eq in H0; subst o.
  cbn [List.length]. rewrite pieces_join by (assumption || lia).
  symmetry. apply substring_whole.
Qed.

End TokenStreamFacts.

(** ** Literal removal *)

Section LiteralFacts.
Import Literal.

Lemma removeFrom_drop (b : string) (n : nat) (t : string) :
  removeFrom b n t = removeAll b (JsString.drop n t).
Proof.
  revert n; induction t as [|c t IH]; intros [|n]; simpl; try reflexivity.
  apply IH.
Qed.

Lemma removeAll_occurrence (b t : string) :
  b <> "" -> removeAll b (b ++ t) = removeAll b t.
Proof.
  destruct b as [|c b]; [congruence|]; intros _.
  unfold removeAll at 1. cbn [append removeFrom].
  change (String c (b ++ t)) with (String c b ++ t).
  rewrite startsWith_append. cbn [String.length].
  rewrite removeFrom_drop. now rewrite drop_append.
Qed.

Lemma removeAll_keep (b : string) (c : ascii) (t : string) :
  b = "" \/ JsString.startsWith b (String c t) = false ->
  removeAll b (String c t) = String c (removeAll b t).
Proof.
  unfold removeAll; intros [->|H]; cbn [removeFrom].
  - reflexivity.
  - now rewrite H.
Qed.

Lemma removeAll_empty (t : string) : removeAll "" t = t.
Proof.
  induction t as [|c t IH]; [reflexivity|].
  rewrite removeAll_keep by now left. now rewrite IH.
Qed.

(** The function computes the relation ... *)
Lemma removeAll_RemovedAll (b t : string) : RemovedAll b t (removeAll b t).
Proof.
  remember (String.length t) as n eqn:Hn.
  revert t Hn; induction n as [n IH] using lt_wf_ind; intros t Hn.
  destruct t as [|c t]; [constructor|].
  destruct b as [|d b].
  - rewrite removeAll_keep by now left.
    apply removed_keep; [now left|]. apply (IH (String.length t)); simpl in *; lia.
  - destruct (JsString.startsWith (String d b) (String c t)) eqn:E.
    + rewrite (startsWith_split _ _ E) at 1 2.
      rewrite removeAll_occurrence by discriminate.
      apply removed_occurrence; [discriminate|].
      eapply IH; [|reflexivity].
      rewrite length_drop; simpl in *; lia.
    + rewrite removeAll_keep by now right.
      apply removed_keep; [now right|]. apply (IH (String.length t)); simpl in *; lia.
Qed.

(** ... and the relation has no other result. *)
Lemma RemovedAll_removeAll (b t t' : string) : RemovedAll b t t' -> t' = removeAll b t.
Proof.
  induction 1 as [|t t' Hb _ IH|c t t' Hc _ IH].
  - reflexivity.
  - now rewrite removeAll_occurrence.
  - rewrite removeAll_keep by assumption. now rewrite IH.
Qed.

Lemma removeAll_absent (b t : string) :
  JsString.includes b t = false -> removeAll b t = t.
Proof.
  induction t as [|c t IH]; [reflexivity|]; intros H.
  cbn [JsString.includes] in H. apply orb_false_elim in H as [H1 H2].
  rewrite removeAll_keep by now right. now rewrite IH.
Qed.

Lemma removeAll_length (b t : string) :
  (String.length (removeAll b t) <= String.length t)%nat.
Proof.
  pose proof (removeAll_RemovedAll b t) as H.
  induction H; simpl; try rewrite length_append; lia.
Qed.

(** Where [b] occurs and is not empty, removal takes something away. *)
Lemma removeAll_present (b t : string) :
  b <> "" -> JsString.includes b t = true ->
  (String.length (removeAll b t) < String.length t)%nat.
Proof.
  intros Hb. induction t as [|c t IH]; intros H.
  - destruct b; [congruence | discriminate].
  - destruct (JsString.startsWith b (String c t)) eqn:E.
    + rewrite (startsWith_split _ _ E) at 1 2.
      rewrite removeAll_occurrence by assumption.
      pose proof (removeAll_length b (JsString.drop (String.length b) (String c t))).
      rewrite length_append. destruct b; [congruence|].
      set (r := JsString.drop _ _) in *. cbn [String.length]. lia.
    + cbn [JsString.includes] in H. rewrite E in H. simpl in H.
      rewrite removeAll_keep by now right. simpl. apply IH in H. lia.
Qed.

Lemma removeBrackets_app (bs1 bs2 : list string) (t : string) :
  fold_left (fun acc b => removeAll b acc) (bs1 ++ bs2) t =
  fold_left (fun acc b => removeAll b acc) bs2
    (fold_left (fun acc b => removeAll b acc) bs1 t).
Proof. apply fold_left_app. Qed.

Lemma removeBrackets_absent (bs : list string) (t : string) :
  forallb (fun b => negb (JsString.includes b t)) bs = true ->
  fold_left (fun acc b => removeAll b acc) bs t = t.
Proof.
  induction bs as [|b bs IH]; simpl; intros H; [reflexivity|].
  apply andb_prop in H as [Hb Hbs].
  rewrite removeAll_absent by now apply negb_true_iff. now apply IH.
Qed.

End LiteralFacts.

(** ** Escaping and literal patterns *)

Section RegExpFacts.
Import JsRegExp Literal IndentationLineProcessor.

Lemma escapePattern_parses : RegExp "[.*+?^${}()|[\]\\]" = Some escapePattern.
Proof. vm_compute. reflexivity. Qed.

Lemma escapeTemplate_parses : parseReplacement "\$&" = Some escapeTemplate.
Proof. vm_compute. reflexivity. Qed.

Lemma emptyTemplate_parses : parseReplacement "" = Some (template "").
Proof. vm_compute. reflexivity. Qed.

(** The class of [escapePattern] holds the fourteen syntax characters, and
    each of them gets one backslash in front. *)
Lemma escapeCharacterForRegex_char (c : ascii) :
  escapeCharacterForRegex (String c "") =
  if isSyntaxCharacter c then String "\" (String c "") else String c "".
Proof.
  destruct c as [b0 b1 b2 b3 b4 b5 b6 b7].
  destruct b0, b1, b2, b3, b4, b5, b6, b7; vm_compute; reflexivity.
Qed.

Lemma escapeStringForRegex_cons (c : ascii) (b : string) :
  escapeStringForRegex (String c b) =
  if isSyntaxCharacter c then String "\" (String c (escapeStringForRegex b))
  else String c (escapeStringForRegex b).
Proof.
  cbn [escapeStringForRegex]. rewrite escapeCharacterForRegex_char.
  destruct (isSyntaxCharacter c); reflexivity.
Qed.

(** An escaped string never starts with a quantifier. *)
Lemma parseQuantifier_escaped (atom : Regex) (b : string) :
  parseQuantifier atom (escapeStringForRegex b) = Some (atom, escapeStringForRegex b).
Proof.
  destruct b as [|c b]; [reflexivity|].
  rewrite escapeStringForRegex_cons.
  destruct (isSyntaxCharacter c) eqn:E; [reflexivity|].
  destruct c as [b0 b1 b2 b3 b4 b5 b6 b7].
  destruct b0, b1, b2, b3, b4, b5, b6, b7; try discriminate E; reflexivity.
Qed.

Lemma parseAlternative_plain (parseD : string -> option (Regex * string))
    (fuel : nat) (c : ascii) (p : string) :
  isSyntaxCharacter c = false ->
  parseAlternative parseD (S fuel) (String c p) =
  ('(term, p2) <- parseQuantifier (RChar c) p ;;
   '(alt, p3) <- parseAlternative parseD fuel p2 ;;
   Some (RSeq term alt, p3)).
Proof.
  intros E.
  destruct c as [b0 b1 b2 b3 b4 b5 b6 b7].
  destruct b0, b1, b2, b3, b4, b5, b6, b7; try discriminate E; reflexivity.
Qed.

Lemma parseAlternative_escape (parseD : string -> option (Regex * string))
    (fuel : nat) (c : ascii) (p : string) :
  isSyntaxCharacter c = true ->
  parseAlternative parseD (S fuel) (String "\" (String c p)) =
  ('(term, p2) <- parseQuantifier (RChar c) p ;;
   '(alt, p3) <- parseAlternative parseD fuel p2 ;;
   Some (RSeq term alt, p3)).
Proof.
  intros E. cbn [parseAlternative parseAtom bind]. rewrite E. reflexivity.
Qed.

Lemma parseAlternative_escaped (parseD : string -> option (Regex * string))
    (b : string) (fuel : nat) :
  (String.length b < fuel)%nat ->
  parseAlternative parseD fuel (escapeStringForRegex b) = Some (literalRegex b, "").
Proof.
  revert fuel; induction b as [|c b IH]; intros [|fuel] H; try (simpl in H; lia).
  - reflexivity.
  - rewrite escapeStringForRegex_cons.
    destruct (isSyntaxCharacter c) eqn:E.
    + rewrite parseAlternative_escape by assumption.
      rewrite parseQuantifier_escaped. cbn [bind].
      rewrite IH by (simpl in H; lia). reflexivity.
    + rewrite parseAlternative_plain by assumption.
      rewrite parseQuantifier_escaped. cbn [bind].
      rewrite IH by (simpl in H; lia). reflexivity.
Qed.

Lemma length_escapeStringForRegex (b : string) :
  (String.length b <= String.length (escapeStringForRegex b))%nat.
Proof.
  induction b as [|c b IH]; [reflexivity|].
  rewrite escapeStringForRegex_cons.
  destruct (isSyntaxCharacter c); simpl; lia.
Qed.

(** The escaped pattern always compiles, to the literal matcher of the
    string that was escaped. *)
Lemma RegExp_escaped (b : string) :
  RegExp (escapeStringForRegex b) = Some (literalRegex b).
Proof.
  unfold RegExp. cbn [parseDisjunction].
  rewrite parseAlternative_escaped
    by (pose proof (length_escapeStringForRegex b); lia).
  reflexivity.
Qed.

Lemma matchRe_literal (b : string) (total : nat) (inp : string)
    (k : string -> option string) :
  matchRe (literalRegex b) total inp k =
  if JsString.startsWith b inp then k (JsString.drop (String.length b) inp) else None.
Proof.
  revert inp; induction b as [|c b IH]; intros inp; [reflexivity|].
  cbn [literalRegex matchRe].
  destruct inp as [|d inp]; [reflexivity|].
  cbn [JsString.startsWith String.length JsString.drop].
  destruct (Ascii.eqb c d); [apply IH | reflexivity].
Qed.

Lemma replaceFrom_literal (b : string) (total skip : nat) (t : string) :
  replaceFrom (literalRegex b) (template "") total skip t = removeFrom b skip t.
Proof.
  change (template "") with (@nil ReplItem).
  revert skip; induction t as [|c t IH]; intros [|skip]; cbn [replaceFrom removeFrom].
  - rewrite matchRe_literal. destruct (JsString.startsWith b ""); reflexivity.
  - reflexivity.
  - rewrite matchRe_literal.
    destruct (JsString.startsWith b (String c t)) eqn:E.
    + rewrite length_drop. cbn [getSubstitution append].
      pose proof (startsWith_length _ _ E) as Hlen.
      replace (String.length (String c t) - (String.length (String c t) - String.length b))%nat
        with (String.length b) by lia.
      destruct (String.length b); now rewrite IH.
    + now rewrite IH.
  - apply IH.
Qed.

(** One pass of the code is one literal removal. *)
Lemma removeBracket_literal (line bracket : string) :
  removeBracket line bracket = Some (removeAll bracket line).
Proof.
  unfold removeBracket. rewrite RegExp_escaped. cbn [bind].
  unfold replace. now rewrite replaceFrom_literal.
Qed.

Lemma fold_removeBracket (bs : list string) (line : string) :
  fold_left (fun acc bracket => l <- acc ;; removeBracket l bracket) bs (Some line) =
  Some (fold_left (fun acc b => removeAll b acc) bs line).
Proof.
  revert line; induction bs as [|b bs IH]; intros line; [reflexivity|].
  cbn [fold_left bind]. rewrite removeBracket_literal. apply IH.
Qed.

Lemma removeBracketsFromText_literal (openBrackets closedBrackets : list string)
    (line : string) :
  removeBracketsFromText openBrackets closedBrackets line =
  Some (removeBrackets openBrackets closedBrackets line).
Proof.
  unfold removeBracketsFromText, removeBrackets.
  rewrite fold_removeBracket, fold_removeBracket. now rewrite fold_left_app.
Qed.

End RegExpFacts.

(** ** The line sanitizer *)

Section SanitizerFacts.
Import JsRegExp Literal Sanitizer IndentationLineProcessor.

Lemma isTokenTypeToProcess_isLiteralLike (tokenType : StandardTokenType.t) :
  isTokenTypeToProcess tokenType = isLiteralLike tokenType.
Proof. destruct tokenType; reflexivity. Qed.

Lemma join_app (l1 l2 : list string) :
  JsString.join (l1 ++ l2) = JsString.join l1 ++ JsString.join l2.
Proof.
  induction l1 as [|x l1 IH]; simpl; [reflexivity|].
  now rewrite IH, append_assoc.
Qed.

(** A [forEach] whose callback appends one piece per token. *)
Lemma forEach_append (tokens : IViewLineTokens) (piece : nat -> string)
    (callback : string -> nat -> option string) (init : string) :
  (forall acc i, callback acc i = Some (acc ++ piece i)) ->
  forEach tokens callback init =
  Some (init ++ JsString.join (map piece (seq 0 (getCount tokens)))).
Proof.
  intros Hcb. unfold forEach.
  generalize (seq 0 (getCount tokens)) as l.
  intros l; revert init; induction l as [|i l IH]; intros init.
  - simpl. now rewrite append_nil_r.
  - cbn [fold_left bind map]. rewrite Hcb, IH.
    simpl. now rewrite append_assoc.
Qed.

(** What [getProcessedLineForTokens] computes; in particular it always
    returns. *)
Lemma getProcessedLineForTokens_eq (svc : ILanguageConfigurationService)
    (tokens : IViewLineTokens) :
  getProcessedLineForTokens svc tokens =
  Some match bracketPairSet svc (getLanguageId tokens 0) with
       | None => getLineContent tokens
       | Some bs => sanitize bs tokens
       end.
Proof.
  unfold getProcessedLineForTokens, bracketPairSet.
  destruct (ResolvedLanguageConfiguration.brackets _) as [bs|]; [|reflexivity].
  rewrite forEach_append with (piece := sanitizedTokenText bs tokens); [reflexivity|].
  intros acc i. unfold sanitizedTokenText, openStrings, closeStrings.
  rewrite isTokenTypeToProcess_isLiteralLike, !flat_map_concat_map.
  destruct (isLiteralLike (getStandardTokenType tokens i)); [|reflexivity].
  now rewrite removeBracketsFromText_literal.
Qed.

Lemma sanitize_free (bs : RichEditBrackets.t) (tokens : IViewLineTokens) :
  literalsFreeOf (bracketStrings bs) tokens = true ->
  sanitize bs tokens = JsString.join (tokenTexts tokens).
Proof.
  unfold literalsFreeOf, sanitize, tokenTexts.
  generalize (seq 0 (getCount tokens)) as l.
  induction l as [|i l IH]; simpl; intros H; [reflexivity|].
  apply andb_prop in H as [Hi Hl]. rewrite (IH Hl). f_equal.
  unfold sanitizedTokenText.
  destruct (isLiteralLike (getStandardTokenType tokens i)); [|reflexivity].
  simpl in Hi. now apply removeBrackets_absent.
Qed.

End SanitizerFacts.

(** ** Claims about the line sanitizer *)

Section SanitizerClaims.
Import JsRegExp Literal Sanitizer IndentationLineProcessor.

(** C1: when the language of the first token has a configured bracket set,
    [getProcessedLineForTokens] returns the concatenation, in token order,
    of the token texts, where a token classified String, Comment or RegEx
    has had the non-overlapping occurrences of every configured open and
    close bracket string removed and every other token is taken as it is. *)
Theorem C1_sanitize_token_by_token (svc : ILanguageConfigurationService)
    (tokens : IViewLineTokens) (bs : RichEditBrackets.t) :
  bracketPairSet svc (getLanguageId tokens 0) = Some bs ->
  getProcessedLineForTokens svc tokens = Some (sanitize bs tokens).
Proof.
  intros H. rewrite getProcessedLineForTokens_eq, H. reflexivity.
Qed.

Lemma C1_witness :
  getProcessedLineForTokens Examples.svc (LineTokens.view Examples.callLine) =
  Some (sanitize Examples.jsBrackets (LineTokens.view Examples.callLine)).
Proof.
  apply (C1_sanitize_token_by_token Examples.svc (LineTokens.view Examples.callLine)).
  reflexivity.
Defined.

(** The bracket inside the string and the one inside the comment go; the
    ones in the code around them stay. *)
Example callLine_sanitized :
  tokenTexts (LineTokens.view Examples.callLine) = ["f("; "'('"; ") { "; "// }"] /\
  getProcessedLineForTokens Examples.svc (LineTokens.view Examples.callLine) =
  Some "f('') { // ".
Proof. split; vm_compute; reflexivity. Qed.

(** C4: when the language of the first token has no bracket configuration,
    [getProcessedLineForTokens] returns the line content of the stream as it
    is, whatever the classification of its tokens. *)
Theorem C4_pass_through (svc : ILanguageConfigurationService) (tokens : IViewLineTokens) :
  bracketPairSet svc (getLanguageId tokens 0) = None ->
  getProcessedLineForTokens svc tokens = Some (getLineContent tokens).
Proof.
  intros H. rewrite getProcessedLineForTokens_eq, H. reflexivity.
Qed.

Lemma C4_witness :
  getProcessedLineForTokens Examples.svc (LineTokens.view Examples.plainFirstLine) =
  Some (getLineContent (LineTokens.view Examples.plainFirstLine)).
Proof.
  apply (C4_pass_through Examples.svc (LineTokens.view Examples.plainFirstLine)).
  reflexivity.
Defined.

(** C5: [removeBracketsFromText] works on one string that every pass
    rewrites: the passes are those of the open bracket strings, in order,
    followed by those of the close bracket strings; the pass of a bracket
    string [b] runs on the output [sofar] of all passes before it, removes
    the non-overlapping occurrences of [b] found there, and so takes
    something away whenever [b] occurs in [sofar], also when the occurrence
    was not in the original text but came about through an earlier
    removal. *)
Theorem C5_progressive_removal (openBrackets closedBrackets : list string) (text : string) :
  removeBracketsFromText openBrackets closedBrackets text =
    Some (fold_left (fun acc b => removeAll b acc) closedBrackets
            (fold_left (fun acc b => removeAll b acc) openBrackets text))
  /\ forall (before after : list string) (b : string),
       (openBrackets ++ closedBrackets = before ++ b :: after)%list ->
       let sofar := fold_left (fun acc b => removeAll b acc) before text in
       removeBracketsFromText openBrackets closedBrackets text =
         Some (fold_left (fun acc b => removeAll b acc) after (removeAll b sofar))
       /\ (b <> "" -> JsString.includes b sofar = true ->
           (String.length (removeAll b sofar) < String.length sofar)%nat).
Proof.
  split.
  - rewrite removeBracketsFromText_literal. unfold removeBrackets.
    now rewrite fold_left_app.
  - intros before after b Hsplit sofar. split.
    + rewrite removeBracketsFromText_literal. unfold removeBrackets.
      rewrite Hsplit, fold_left_app. reflexivity.
    + intros Hb Hin. now apply removeAll_present.
Qed.

Lemma C5_witness :
  IndentationLineProcessor.removeBracketsFromText ["x"] ["ab"] "axb" =
    Some (fold_left (fun acc b => Literal.removeAll b acc) []
            (Literal.removeAll "ab" (fold_left (fun acc b => Literal.removeAll b acc) ["x"] "axb")))
  /\ (String.length
        (Literal.removeAll "ab" (fold_left (fun acc b => Literal.removeAll b acc) ["x"] "axb"))
      < String.length (fold_left (fun acc b => Literal.removeAll b acc) ["x"] "axb"))%nat.
Proof.
  destruct (C5_progressive_removal ["x"] ["ab"] "axb") as [_ H].
  destruct (H ["x"] [] "ab" eq_refl) as [H1 H2].
  split; [exact H1 | apply H2; [discriminate | reflexivity]].
Defined.

(** Removing [x] exposes [ab], which the later pass removes; computed on
    the original text, the pass of [ab] would have found nothing.  A pass
    that has already run is not run again. *)
Example exposed_bracket_removed :
  removeBracketsFromText ["x"; "ab"] [] "axb" = Some ""
  /\ removeAll "ab" "axb" = "axb"
  /\ removeBracketsFromText ["x"] ["ab"] "axb" = Some ""
  /\ removeBracketsFromText ["ab"] ["x"] "axb" = Some "ab".
Proof. repeat split; vm_compute; reflexivity. Qed.

(** C6: for every bracket string, whatever characters it is made of, the
    pattern built by [escapeStringForRegex] compiles to the matcher of that
    very character sequence, and replacing its matches by the empty string
    removes the literal, character-for-character occurrences of the bracket
    string and nothing else. *)
Theorem C6_literal_match (bracket text : string) :
  RegExp (escapeStringForRegex bracket) = Some (literalRegex bracket)
  /\ exists result,
       removeBracket text bracket = Some result
       /\ RemovedAll bracket text result
       /\ result = removeAll bracket text.
Proof.
  split; [apply RegExp_escaped|].
  exists (removeAll bracket text). split; [apply removeBracket_literal|].
  split; [apply removeAll_RemovedAll | reflexivity].
Qed.

(** Every syntax character as a bracket string of its own, and the pattern
    [.*] as the engine reads it when it is not escaped. *)
Example metacharacters_literal :
  map (fun b => removeBracket "a.b*c+d?e^f$g(h)i[j]k{l}m|n\o" b)
      ["."; "*"; "+"; "?"; "^"; "$"; "("; ")"; "["; "]"; "{"; "}"; "|"; "\"]
  = map Some
      ["ab*c+d?e^f$g(h)i[j]k{l}m|n\o"; "a.bc+d?e^f$g(h)i[j]k{l}m|n\o";
       "a.b*cd?e^f$g(h)i[j]k{l}m|n\o"; "a.b*c+de^f$g(h)i[j]k{l}m|n\o";
       "a.b*c+d?ef$g(h)i[j]k{l}m|n\o"; "a.b*c+d?e^fg(h)i[j]k{l}m|n\o";
       "a.b*c+d?e^f$gh)i[j]k{l}m|n\o"; "a.b*c+d?e^f$g(hi[j]k{l}m|n\o";
       "a.b*c+d?e^f$g(h)ij]k{l}m|n\o"; "a.b*c+d?e^f$g(h)i[jk{l}m|n\o";
       "a.b*c+d?e^f$g(h)i[j]kl}m|n\o"; "a.b*c+d?e^f$g(h)i[j]k{lm|n\o";
       "a.b*c+d?e^f$g(h)i[j]k{l}mn\o"; "a.b*c+d?e^f$g(h)i[j]k{l}m|no"]
  /\ removeBracket "x.*y" ".*" = Some "xy"
  /\ option_map (fun re => replace "x.*y" re (template "")) (RegExp ".*") = Some ""
  /\ RegExp "(" = None.
Proof. repeat split; vm_compute; reflexivity. Qed.

(** C9: when the token texts make up the line and no token classified
    String, Comment or RegEx holds an occurrence of a configured bracket
    string, [getProcessedLineForTokens] returns the concatenation of the
    token texts, that is the line, unchanged. *)
Theorem C9_nothing_to_remove (svc : ILanguageConfigurationService)
    (tokens : IViewLineTokens) :
  coversLine tokens ->
  match bracketPairSet svc (getLanguageId tokens 0) with
  | Some bs => literalsFreeOf (bracketStrings bs) tokens = true
  | None => True
  end ->
  getProcessedLineForTokens svc tokens = Some (JsString.join (tokenTexts tokens))
  /\ getProcessedLineForTokens svc tokens = Some (getLineContent tokens).
Proof.
  intros Hcov Hfree. rewrite getProcessedLineForTokens_eq.
  destruct (bracketPairSet svc (getLanguageId tokens 0)) as [bs|].
  - rewrite (sanitize_free _ _ Hfree). now rewrite Hcov.
  - now rewrite <- Hcov.
Qed.

Lemma C9_witness :
  getProcessedLineForTokens Examples.svc (LineTokens.view Examples.cleanLine) =
    Some (JsString.join (tokenTexts (LineTokens.view Examples.cleanLine)))
  /\ getProcessedLineForTokens Examples.svc (LineTokens.view Examples.cleanLine) =
    Some (getLineContent (LineTokens.view Examples.cleanLine)).
Proof.
  apply (C9_nothing_to_remove Examples.svc (LineTokens.view Examples.cleanLine));
    vm_compute; reflexivity.
Defined.

Example cleanLine_unchanged :
  getProcessedLineForTokens Examples.svc (LineTokens.view Examples.cleanLine) =
  Some "f(a[0]) + 'b' // c".
Proof. vm_compute. reflexivity. Qed.

(** C10: the result of [getProcessedLineForTokens] does not depend on the
    language ids of the tokens after the first: the bracket set is the one
    of the language of token 0, every token classified String, Comment or
    RegEx is stripped with it whatever its own language, and when that
    language has no bracket configuration the whole line content is
    returned as it is. *)
Theorem C10_first_token_decides (svc : ILanguageConfigurationService)
    (tokens : IViewLineTokens) (languageIds : nat -> string) :
  getProcessedLineForTokens svc (relabelRest tokens languageIds) =
    getProcessedLineForTokens svc tokens
  /\ getProcessedLineForTokens svc tokens =
     Some match bracketPairSet svc (getLanguageId tokens 0) with
          | Some bs => sanitize bs tokens
          | None => getLineContent tokens
          end.
Proof.
  split; [|apply getProcessedLineForTokens_eq].
  rewrite !getProcessedLineForTokens_eq. reflexivity.
Qed.

(** A string of a language with brackets is left alone behind a first
    token of a language without; a string of a language without brackets is
    stripped behind a first token of a language with brackets. *)
Example first_token_language :
  bracketPairSet Examples.svc
    (getLanguageId (LineTokens.view Examples.plainFirstLine) 1) = Some Examples.jsBrackets
  /\ getProcessedLineForTokens Examples.svc (LineTokens.view Examples.plainFirstLine) =
     Some "see '(x)'"
  /\ bracketPairSet Examples.svc
       (getLanguageId (LineTokens.view Examples.jsFirstLine) 1) = None
  /\ getProcessedLineForTokens Examples.svc (LineTokens.view Examples.jsFirstLine) =
     Some "g('x')".
Proof. repeat split; vm_compute; reflexivity. Qed.

End SanitizerClaims.

(** ** Claims about whole lines and the rule facade *)

Section LineClaims.
Import Sanitizer IndentationLineProcessor.

Lemma drop_leadingWhitespace (isWhitespace : ascii -> bool) (line : string) :
  JsString.drop (String.length (getLeadingWhitespace isWhitespace line)) line =
  withoutLeadingWhitespace isWhitespace line.
Proof.
  induction line as [|c line IH]; [reflexivity|].
  cbn [getLeadingWhitespace withoutLeadingWhitespace].
  destruct (isWhitespace c); [exact IH | reflexivity].
Qed.

Lemma leadingWhitespace_split (isWhitespace : ascii -> bool) (line : string) :
  line = getLeadingWhitespace isWhitespace line ++ withoutLeadingWhitespace isWhitespace line.
Proof.
  induction line as [|c line IH]; [reflexivity|].
  cbn [getLeadingWhitespace withoutLeadingWhitespace].
  destruct (isWhitespace c); [|reflexivity].
  cbn [append]. now rewrite <- IH.
Qed.

Lemma adjustIndentation_eq (isWhitespace : ascii -> bool) (line newIndentation : string) :
  adjustIndentation isWhitespace line newIndentation =
  newIndentation ++ withoutLeadingWhitespace isWhitespace line.
Proof.
  unfold adjustIndentation, JsString.substringFrom, JsString.length.
  now rewrite Nat2Z.id, drop_leadingWhitespace.
Qed.

Lemma getProcessedLine_total (isWhitespace : ascii -> bool) (model : IVirtualModel.t)
    (svc : ILanguageConfigurationService) (lineNumber : Z)
    (newIndentation : option string) :
  exists processedLine,
    getProcessedLine isWhitespace model svc lineNumber newIndentation = Some processedLine.
Proof.
  unfold getProcessedLine. rewrite getProcessedLineForTokens_eq. cbn [bind].
  destruct newIndentation; eexists; reflexivity.
Qed.

(** C7: [getProcessedLine] sanitizes the token stream of the line first;
    without a replacement indentation it returns the sanitized line, and
    with one it returns the replacement followed by the sanitized line
    without its leading whitespace run, the run being the one of the
    sanitized line. *)
Theorem C7_indentation_after_sanitizing (isWhitespace : ascii -> bool)
    (model : IVirtualModel.t) (svc : ILanguageConfigurationService) (lineNumber : Z) :
  exists sanitized,
    getProcessedLineForTokens svc (LineTokens.view (IVirtualModel.getLineTokens model lineNumber))
      = Some sanitized
    /\ sanitized = getLeadingWhitespace isWhitespace sanitized
                    ++ withoutLeadingWhitespace isWhitespace sanitized
    /\ getProcessedLine isWhitespace model svc lineNumber None = Some sanitized
    /\ forall newIndentation,
         getProcessedLine isWhitespace model svc lineNumber (Some newIndentation)
         = Some (newIndentation ++ withoutLeadingWhitespace isWhitespace sanitized).
Proof.
  unfold getProcessedLine.
  rewrite getProcessedLineForTokens_eq. cbn [bind].
  eexists; split; [reflexivity|].
  split; [apply leadingWhitespace_split|]. split; [reflexivity|].
  intros newIndentation. now rewrite adjustIndentation_eq.
Qed.

(** The sanitized form of line 4 is [  foo()] and two tabs replace its two
    blanks.  On line 3 the raw line starts with two blanks, the sanitized
    one with three, and three are replaced. *)
Example indentation_replaced :
  getProcessedLine Examples.isSpaceOrTab Examples.document Examples.svc 4 None
    = Some "  foo()"
  /\ getProcessedLine Examples.isSpaceOrTab Examples.document Examples.svc 4
       (Some (String Examples.tab (String Examples.tab "")))
    = Some (String Examples.tab (String Examples.tab "foo()"))
  /\ getLeadingWhitespace Examples.isSpaceOrTab
       (getLineContent (LineTokens.view (IVirtualModel.getLineTokens Examples.document 3))) = "  "
  /\ getProcessedLine Examples.isSpaceOrTab Examples.document Examples.svc 3 None
    = Some "   */ foo("
  /\ getProcessedLine Examples.isSpaceOrTab Examples.document Examples.svc 3 (Some "-")
    = Some "-*/ foo(".
Proof. repeat split; vm_compute; reflexivity. Qed.

(** C8: each of the four operations of the facade returns what the
    predicate of the same name of the rule evaluator answers on
    [getProcessedLine lineNumber newIndentation], and that line is always
    there to be handed over. *)
Theorem C8_facade_delegates (isWhitespace : ascii -> bool) (model : IVirtualModel.t)
    (rules : IndentRulesSupport.t) (svc : ILanguageConfigurationService)
    (lineNumber : Z) (newIndentation : option string) :
  exists processedLine,
    getProcessedLine isWhitespace model svc lineNumber newIndentation = Some processedLine
    /\ ProcessedIndentRulesSupport.shouldIncrease isWhitespace model rules svc
         lineNumber newIndentation
       = Some (IndentRulesSupport.shouldIncrease rules processedLine)
    /\ ProcessedIndentRulesSupport.shouldDecrease isWhitespace model rules svc
         lineNumber newIndentation
       = Some (IndentRulesSupport.shouldDecrease rules processedLine)
    /\ ProcessedIndentRulesSupport.shouldIgnore isWhitespace model rules svc
         lineNumber newIndentation
       = Some (IndentRulesSupport.shouldIgnore rules processedLine)
    /\ ProcessedIndentRulesSupport.shouldIndentNextLine isWhitespace model rules svc
         lineNumber newIndentation
       = Some (IndentRulesSupport.shouldIndentNextLine rules processedLine).
Proof.
  destruct (getProcessedLine_total isWhitespace model svc lineNumber newIndentation)
    as [processedLine H].
  exists processedLine. split; [exact H|].
  unfold ProcessedIndentRulesSupport.shouldIncrease,
    ProcessedIndentRulesSupport.shouldDecrease,
    ProcessedIndentRulesSupport.shouldIgnore,
    ProcessedIndentRulesSupport.shouldIndentNextLine.
  rewrite H. cbn [bind]. repeat split.
Qed.

End LineClaims.

(** ** Claims about the context around a range *)

Section ContextClaims.
Import IndentationLineProcessor IndentationContextProcessor.

Variable State : Type.
Variable model : ITextModel.t State.
Variable svc : ILanguageConfigurationService.
Variable createScopedLineTokens : LineTokens -> Z -> ScopedLineTokens.t.
Variable sliceAndInflate : LineTokens -> Z -> Z -> Z -> IViewLineTokens.

Lemma getProcessedLineForTokensC_run (tokens : IViewLineTokens) (st : State) :
  exists text,
    getProcessedLineForTokens svc tokens = Some text
    /\ getProcessedLineForTokensC svc tokens st = Some (text, st).
Proof.
  unfold getProcessedLineForTokensC, liftC.
  rewrite getProcessedLineForTokens_eq. eexists; split; reflexivity.
Qed.

Lemma _getProcessedTextBeforeRange_run (range : Range.t) (scope : ScopedLineTokens.t)
    (st : State) :
  exists text,
    _getProcessedTextBeforeRange model svc sliceAndInflate range scope st = Some (text, st).
Proof.
  unfold _getProcessedTextBeforeRange, bindC, getLineTokensC.
  destruct (getProcessedLineForTokensC_run
              (sliceAndInflate (ITextModel.getLineTokens model st (Range.startLineNumber range))
                 (ScopedLineTokens.firstCharOffset scope)
                 (ScopedLineTokens.firstCharOffset scope
                  + (Range.startColumn range - 1 - ScopedLineTokens.firstCharOffset scope))
                 0) st) as (text & _ & H).
  exists text. exact H.
Qed.

Lemma _getProcessedTextAfterRange_run (range : Range.t) (scope : ScopedLineTokens.t)
    (st : State) :
  let scopeEnd := (ScopedLineTokens.firstCharOffset scope
                   + JsString.length (ScopedLineTokens.getLineContent scope))%Z in
  exists text,
    _getProcessedTextAfterRange model svc sliceAndInflate range scope st = Some (text, st)
    /\ Some text =
       if Range.isEmpty range
       then getProcessedLineForTokens svc
              (sliceAndInflate (ITextModel.getLineTokens model st (Range.startLineNumber range))
                 (Range.startColumn range - 1) scopeEnd 0)
       else getProcessedLineForTokens svc
              (sliceAndInflate (ITextModel.getLineTokens model st (Range.endLineNumber range))
                 (Range.endColumn range - 1) scopeEnd 0).
Proof.
  intros scopeEnd.
  unfold _getProcessedTextAfterRange, bindC, getLineTokensC, ret.
  destruct (Range.isEmpty range).
  - replace (ScopedLineTokens.firstCharOffset scope
             + (Range.startColumn range - 1 - ScopedLineTokens.firstCharOffset scope))%Z
      with (Range.startColumn range - 1)%Z by lia.
    destruct (getProcessedLineForTokensC_run
                (sliceAndInflate (ITextModel.getLineTokens model st (Range.startLineNumber range))
                   (Range.startColumn range - 1) scopeEnd 0) st) as (text & H1 & H2).
    exists text. split; [exact H2 | now rewrite H1].
  - replace (ScopedLineTokens.firstCharOffset scope
             + (Range.endColumn range - 1 - ScopedLineTokens.firstCharOffset scope))%Z
      with (Range.endColumn range - 1)%Z by lia.
    destruct (getProcessedLineForTokensC_run
                (sliceAndInflate (ITextModel.getLineTokens model st (Range.endLineNumber range))
                   (Range.endColumn range - 1) scopeEnd 0) st) as (text & H1 & H2).
    exists text. split; [exact H2 | now rewrite H1].
Qed.

Lemma _getProcessedPreviousLine_run (range : Range.t) (scope : ScopedLineTokens.t)
    (st : State) :
  let previousLineNumber := (Range.startLineNumber range - 1)%Z in
  let st' := ITextModel.forceTokenization model previousLineNumber st in
  let previousTokens := ITextModel.getLineTokens model st' previousLineNumber in
  let previousScope :=
    createScopedLineTokens previousTokens
      (ITextModel.getLineMaxColumn model st' previousLineNumber - 1) in
  exists text st'',
    _getProcessedPreviousLine model svc createScopedLineTokens sliceAndInflate
      range scope st = Some (text, st'')
    /\ Some text =
       if negb (Range.startLineNumber range =? 1)%Z
          && ScopedLineTokens.doesScopeStartAtOffsetZero scope
          && String.eqb (ScopedLineTokens.languageId previousScope)
               (ScopedLineTokens.languageId scope)
       then getProcessedLineForTokens svc
              (sliceAndInflate previousTokens
                 (ScopedLineTokens.firstCharOffset previousScope)
                 (ScopedLineTokens.firstCharOffset previousScope
                  + JsString.length (ScopedLineTokens.getLineContent previousScope)) 0)
       else Some "".
Proof.
  intros previousLineNumber st' previousTokens previousScope.
  unfold _getProcessedPreviousLine.
  fold previousLineNumber.
  replace (Range.startLineNumber range =? 1)%Z with (previousLineNumber =? 0)%Z
    by (subst previousLineNumber;
        destruct (Z.eqb_spec (Range.startLineNumber range - 1) 0);
        destruct (Z.eqb_spec (Range.startLineNumber range) 1); try reflexivity; lia).
  destruct (previousLineNumber =? 0)%Z; [exists "", st; split; reflexivity|].
  destruct (ScopedLineTokens.doesScopeStartAtOffsetZero scope);
    [|exists "", st; split; reflexivity].
  cbn [negb andb].
  unfold bindC, getScopedLineTokensAtEndColumnOfLine, getSlicedLineTokensForScopeAtLine,
    bindC, forceTokenizationC, getLineTokensC, getLineMaxColumnC, ret.
  fold st'. fold previousTokens. fold previousScope.
  rewrite (String.eqb_sym (ScopedLineTokens.languageId previousScope)).
  destruct (String.eqb (ScopedLineTokens.languageId scope)
              (ScopedLineTokens.languageId previousScope));
    [|exists "", st'; split; reflexivity].
  cbn [negb].
  destruct (getProcessedLineForTokensC_run
              (sliceAndInflate previousTokens
                 (ScopedLineTokens.firstCharOffset previousScope)
                 (ScopedLineTokens.firstCharOffset previousScope
                  + JsString.length (ScopedLineTokens.getLineContent previousScope)) 0)
              st') as (text & H1 & H2).
  exists text, st'. split; [exact H2 | now rewrite H1].
Qed.

(** C2: [previousLineText] is the empty string unless the start line is
    not line 1, the scope found at the start of the range begins at offset
    zero and the scope found at the last column of the previous line has the
    same language id; when all three hold it is the sanitized form of the
    token stream of the previous line, sliced to the character span of that
    previous-line scope. *)
Theorem C2_previous_line_text (range : Range.t) (st : State) :
  let startLine := Range.startLineNumber range in
  let st1 := ITextModel.forceTokenization model startLine st in
  let scope :=
    createScopedLineTokens (ITextModel.getLineTokens model st1 startLine)
      (Range.startColumn range - 1) in
  let st2 := ITextModel.forceTokenization model (startLine - 1) st1 in
  let previousTokens := ITextModel.getLineTokens model st2 (startLine - 1) in
  let previousScope :=
    createScopedLineTokens previousTokens
      (ITextModel.getLineMaxColumn model st2 (startLine - 1) - 1) in
  exists context st',
    getProcessedContextAroundRange model svc createScopedLineTokens sliceAndInflate
      range st = Some (context, st')
    /\ Some (previousLineText context) =
       if negb (startLine =? 1)%Z
          && ScopedLineTokens.doesScopeStartAtOffsetZero scope
          && String.eqb (ScopedLineTokens.languageId previousScope)
               (ScopedLineTokens.languageId scope)
       then getProcessedLineForTokens svc
              (sliceAndInflate previousTokens
                 (ScopedLineTokens.firstCharOffset previousScope)
                 (ScopedLineTokens.firstCharOffset previousScope
                  + JsString.length (ScopedLineTokens.getLineContent previousScope)) 0)
       else Some "".
Proof.
  intros startLine st1 scope st2 previousTokens previousScope.
  unfold getProcessedContextAroundRange.
  unfold bindC at 1 2. unfold forceTokenizationC, getLineTokensC.
  fold startLine. fold st1. fold scope.
  unfold bindC at 1.
  destruct (_getProcessedTextBeforeRange_run range scope st1) as (before & ->).
  unfold bindC at 1.
  destruct (_getProcessedTextAfterRange_run range scope st1) as (after & -> & _).
  unfold bindC at 1.
  destruct (_getProcessedPreviousLine_run range scope st1) as (prev & st' & -> & Hprev).
  exists {| beforeRangeText := before; afterRangeText := after;
            previousLineText := prev |}, st'.
  split; [reflexivity | exact Hprev].
Qed.

(** C3: [afterRangeText] is, for a collapsed range, the sanitized slice of
    the token stream of the start line from the start column to the end of
    the scope found at the start of the range, and for any other range the
    sanitized slice of the token stream of the end line from the end column
    to the end of that same scope. *)
Theorem C3_after_range_text (range : Range.t) (st : State) :
  let startLine := Range.startLineNumber range in
  let st1 := ITextModel.forceTokenization model startLine st in
  let scope :=
    createScopedLineTokens (ITextModel.getLineTokens model st1 startLine)
      (Range.startColumn range - 1) in
  let scopeEnd := (ScopedLineTokens.firstCharOffset scope
                   + JsString.length (ScopedLineTokens.getLineContent scope))%Z in
  exists context st',
    getProcessedContextAroundRange model svc createScopedLineTokens sliceAndInflate
      range st = Some (context, st')
    /\ Some (afterRangeText context) =
       if Range.isEmpty range
       then getProcessedLineForTokens svc
              (sliceAndInflate (ITextModel.getLineTokens model st1 startLine)
                 (Range.startColumn range - 1) scopeEnd 0)
       else getProcessedLineForTokens svc
              (sliceAndInflate (ITextModel.getLineTokens model st1 (Range.endLineNumber range))
                 (Range.endColumn range - 1) scopeEnd 0).
Proof.
  intros startLine st1 scope scopeEnd.
  unfold getProcessedContextAroundRange.
  unfold bindC at 1 2. unfold forceTokenizationC, getLineTokensC.
  fold startLine. fold st1. fold scope.
  unfold bindC at 1.
  destruct (_getProcessedTextBeforeRange_run range scope st1) as (before & ->).
  unfold bindC at 1.
  destruct (_getProcessedTextAfterRange_run range scope st1) as (after & -> & Hafter).
  unfold bindC at 1.
  destruct (_getProcessedPreviousLine_run range scope st1) as (prev & st' & -> & _).
  exists {| beforeRangeText := before; afterRangeText := after;
            previousLineText := prev |}, st'.
  split; [reflexivity | exact Hafter].
Qed.

End ContextClaims.

(** ** The context processor on a sample page *)

Section ContextExamples.
Import Examples IndentationContextProcessor.

(** The caret on line 2 sits in a script that starts at offset zero and
    the previous line ends in the same language: the previous-line text is
    the sanitized script part of line 1, without the markup before it. *)
Example previous_line_continues :
  contextAround (caret 2 3) 3 =
  Some ({| beforeRangeText := "g(";
           afterRangeText := "'') }";
           previousLineText := "f('');" |}, 3%Z).
Proof. vm_compute. reflexivity. Qed.

(** No previous-line text on line 1; none when the scope at the caret
    starts in the middle of the line, although line 2 ends in a script; none
    when the previous line ends in another language. *)
Example previous_line_empty :
  option_map (fun r => previousLineText (fst r)) (contextAround (caret 1 11) 3) = Some ""
  /\ ScopedLineTokens.firstCharOffset (resolveScope scriptMidLine 17) = 16%Z
  /\ option_map (fun r => previousLineText (fst r)) (contextAround (caret 3 18) 3) = Some ""
  /\ option_map (fun r => previousLineText (fst r)) (contextAround (caret 4 1) 4) = Some "".
Proof. repeat split; vm_compute; reflexivity. Qed.

(** A selection from line 1 into line 2: the text after it comes from
    line 2, between the end column and the end offset of the scope found on
    line 1. *)
Example after_range_from_end_line :
  option_map (fun r => afterRangeText (fst r))
    (contextAround {| Range.startLineNumber := 1; Range.startColumn := 11;
                      Range.endLineNumber := 2; Range.endColumn := 3 |} 3)
  = Some "'') }"
  /\ option_map (fun r => afterRangeText (fst r)) (contextAround (caret 1 11) 3)
     = Some "'');".
Proof. split; vm_compute; reflexivity. Qed.

End ContextExamples.

(** * Further properties of the code *)

(** ** Escaping *)

Section EscapeProperties.
Import JsRegExp Shape IndentationLineProcessor.

Lemma isEscapedCharacter_syntax (c : ascii) :
  isEscapedCharacter c = isSyntaxCharacter c.
Proof.
  destruct c as [b0 b1 b2 b3 b4 b5 b6 b7].
  destruct b0, b1, b2, b3, b4, b5, b6, b7; reflexivity.
Qed.

(** X4: on a single character, [escapeCharacterForRegex] puts one backslash
    in front of each of the fourteen characters of its class,
    [. * + ? ^ $ { } ( ) | [ ] \], and returns any other character as it
    is. *)
Theorem X4_escape_one_character (c : ascii) :
  escapeCharacterForRegex (String c "") =
  if isEscapedCharacter c then String "\" (String c "") else String c "".
Proof.
  rewrite isEscapedCharacter_syntax. apply escapeCharacterForRegex_char.
Qed.

Lemma matchRe_escapePattern (total : nat) (c : ascii) (tl : string) :
  matchRe escapePattern total (String c tl) (fun rest => Some rest) =
  if isSyntaxCharacter c then Some tl else None.
Proof.
  destruct c as [b0 b1 b2 b3 b4 b5 b6 b7].
  destruct b0, b1, b2, b3, b4, b5, b6, b7; reflexivity.
Qed.

Lemma replaceFrom_escapePattern (total : nat) (s : string) :
  replaceFrom escapePattern escapeTemplate total 0 s = escapeStringForRegex s.
Proof.
  induction s as [|c s IH]; [reflexivity|].
  rewrite escapeStringForRegex_cons.
  cbn [replaceFrom]. rewrite matchRe_escapePattern.
  destruct (isSyntaxCharacter c).
  - cbn [String.length]. replace (S (String.length s) - String.length s)%nat with 1%nat by lia.
    cbn [JsString.take]. rewrite IH.
    change escapeTemplate with [Lit "\"; Matched]. reflexivity.
  - now rewrite IH.
Qed.

(** X5: [escapeCharacterForRegex] applied to a whole string gives what the
    character-by-character loop of [escapeStringForRegex] gives. *)
Theorem X5_escape_whole_string (text : string) :
  escapeCharacterForRegex text = escapeStringForRegex text.
Proof.
  unfold escapeCharacterForRegex, replace. apply replaceFrom_escapePattern.
Qed.

Lemma escapeStringForRegex_app (s t : string) :
  escapeStringForRegex (s ++ t) = escapeStringForRegex s ++ escapeStringForRegex t.
Proof.
  induction s as [|c s IH]; [reflexivity|].
  cbn [append]. rewrite !escapeStringForRegex_cons, IH.
  destruct (isSyntaxCharacter c); reflexivity.
Qed.

Lemma escapeStringForRegex_length_upper (s : string) :
  (String.length (escapeStringForRegex s) <= 2 * String.length s)%nat.
Proof.
  induction s as [|c s IH]; [simpl; lia|].
  rewrite escapeStringForRegex_cons.
  destruct (isSyntaxCharacter c); simpl in *; lia.
Qed.

(** X6: escaping goes through concatenation, never shortens a string and
    at most doubles its length, and returns the string unchanged exactly
    when it holds none of the fourteen characters. *)
Theorem X6_escape_shape (s t : string) :
  escapeStringForRegex (s ++ t) = escapeStringForRegex s ++ escapeStringForRegex t
  /\ (String.length s <= String.length (escapeStringForRegex s) <= 2 * String.length s)%nat
  /\ (escapeStringForRegex s = s <-> hasAny isEscapedCharacter s = false).
Proof.
  split; [apply escapeStringForRegex_app|].
  split; [split; [apply length_escapeStringForRegex
                 | apply escapeStringForRegex_length_upper]|].
  induction s as [|c s IH]; [split; reflexivity|].
  rewrite escapeStringForRegex_cons. cbn [hasAny].
  rewrite isEscapedCharacter_syntax.
  destruct (isSyntaxCharacter c) eqn:E; cbn [orb].
  - split; [|discriminate]. intros H.
    apply (f_equal String.length) in H. cbn [String.length] in H.
    pose proof (length_escapeStringForRegex s). lia.
  - split.
    + intros H. injection H as H. now apply IH.
    + intros H. f_equal. now apply IH.
Qed.

(** X7: different strings have different escaped patterns. *)
Theorem X7_escape_injective (s t : string) :
  escapeStringForRegex s = escapeStringForRegex t -> s = t.
Proof.
  revert t; induction s as [|c s IH]; intros [|d t] H.
  - reflexivity.
  - rewrite escapeStringForRegex_cons in H.
    destruct (isSyntaxCharacter d); discriminate.
  - rewrite escapeStringForRegex_cons in H.
    destruct (isSyntaxCharacter c); discriminate.
  - rewrite !escapeStringForRegex_cons in H.
    destruct (isSyntaxCharacter c) eqn:Ec, (isSyntaxCharacter d) eqn:Ed.
    + injection H as Hcd H. subst d. f_equal. now apply IH.
    + injection H as Hd H. subst d. discriminate.
    + injection H as Hc H. subst c. discriminate.
    + injection H as Hcd H. subst d. f_equal. now apply IH.
Qed.

Lemma X7_witness :
  IndentationLineProcessor.escapeStringForRegex "(x)" = "\(x\)" /\ "(x)" = "(x)".
Proof.
  split; [reflexivity|].
  apply (X7_escape_injective "(x)" "(x)"). reflexivity.
Defined.

End EscapeProperties.

(** ** Bracket removal *)

Section RemovalProperties.
Import JsRegExp Literal Shape IndentationLineProcessor.

Lemma Subsequence_refl (s : string) : Subsequence s s.
Proof. induction s; constructor; assumption. Qed.

Lemma Subsequence_trans (s t u : string) :
  Subsequence s t -> Subsequence t u -> Subsequence s u.
Proof.
  intros Hst Htu; revert s Hst.
  induction Htu as [|c t u _ IH|c t u _ IH]; intros s Hst.
  - exact Hst.
  - inversion Hst; subst; constructor; now apply IH.
  - constructor. now apply IH.
Qed.

Lemma Subsequence_app (s1 t1 s2 t2 : string) :
  Subsequence s1 t1 -> Subsequence s2 t2 -> Subsequence (s1 ++ s2) (t1 ++ t2).
Proof.
  intros H1 H2. induction H1; cbn [append]; try constructor; assumption.
Qed.

Lemma Subsequence_skip (b s t : string) :
  Subsequence s t -> Subsequence s (b ++ t).
Proof.
  intros H. induction b as [|c b IH]; cbn [append]; [assumption | now constructor].
Qed.

Lemma Subsequence_length (s t : string) :
  Subsequence s t -> (String.length s <= String.length t)%nat.
Proof. induction 1; simpl; lia. Qed.

Lemma RemovedAll_Subsequence (b t t' : string) :
  RemovedAll b t t' -> Subsequence t' t.
Proof.
  induction 1; [constructor | now apply Subsequence_skip | now constructor].
Qed.

Lemma fold_removeAll_Subsequence (bs : list string) (t : string) :
  Subsequence (fold_left (fun acc b => removeAll b acc) bs t) t.
Proof.
  revert t; induction bs as [|b bs IH]; intros t; [apply Subsequence_refl|].
  cbn [fold_left]. eapply Subsequence_trans; [apply IH|].
  apply RemovedAll_Subsequence with (b := b). apply removeAll_RemovedAll.
Qed.

(** X8: [removeBracketsFromText] only deletes: for any bracket strings it
    returns, and what it returns is the text with some characters left out,
    in the same order, so it is never longer than the text. *)
Theorem X8_removal_only_deletes (openBrackets closedBrackets : list string)
    (text : string) :
  exists result,
    removeBracketsFromText openBrackets closedBrackets text = Some result
    /\ Subsequence result text
    /\ (String.length result <= String.length text)%nat.
Proof.
  rewrite removeBracketsFromText_literal. eexists; split; [reflexivity|].
  assert (H : Subsequence (removeBrackets openBrackets closedBrackets text) text)
    by apply fold_removeAll_Subsequence.
  split; [exact H | now apply Subsequence_length].
Qed.

Lemma RemovedAll_length (b t t' : string) :
  RemovedAll b t t' ->
  exists k, String.length t = (String.length t' + k * String.length b)%nat.
Proof.
  induction 1 as [|t t' _ _ [k IH]|c t t' _ _ [k IH]].
  - exists 0%nat. reflexivity.
  - exists (S k). rewrite length_append, IH. simpl. lia.
  - exists k. simpl. now rewrite IH.
Qed.

(** X9: one pass of either loop of [removeBracketsFromText] takes away
    whole occurrences of its bracket string: the text gets shorter by a
    multiple of the length of the bracket string. *)
Theorem X9_pass_removes_whole_occurrences (processedLine bracket : string) :
  exists result k,
    removeBracket processedLine bracket = Some result
    /\ String.length processedLine
       = (String.length result + k * String.length bracket)%nat.
Proof.
  rewrite removeBracket_literal.
  destruct (RemovedAll_length _ _ _ (removeAll_RemovedAll bracket processedLine))
    as [k Hk].
  exists (removeAll bracket processedLine), k. split; [reflexivity | exact Hk].
Qed.

Lemma fold_removeAll_filter_nonEmpty (bs : list string) (t : string) :
  fold_left (fun acc b => removeAll b acc) (filter isNonEmpty bs) t =
  fold_left (fun acc b => removeAll b acc) bs t.
Proof.
  revert t; induction bs as [|b bs IH]; intros t; [reflexivity|].
  destruct b as [|c b]; cbn [filter isNonEmpty fold_left].
  - now rewrite removeAll_empty.
  - apply IH.
Qed.

(** X10: an empty bracket string changes nothing: dropping the empty
    strings from both bracket lists leaves the result as it was. *)
Theorem X10_empty_brackets_ignored (openBrackets closedBrackets : list string)
    (text : string) :
  removeBracketsFromText (filter isNonEmpty openBrackets)
    (filter isNonEmpty closedBrackets) text
  = removeBracketsFromText openBrackets closedBrackets text.
Proof.
  rewrite !removeBracketsFromText_literal. unfold removeBrackets.
  rewrite !fold_left_app, !fold_removeAll_filter_nonEmpty. reflexivity.
Qed.

Lemma removeAll_single (c : ascii) (t : string) :
  removeAll (String c "") t = withoutCharacters (Ascii.eqb c) t.
Proof.
  induction t as [|d t IH]; [reflexivity|].
  unfold removeAll in *. cbn [removeFrom JsString.startsWith String.length withoutCharacters].
  destruct (Ascii.eqb c d); cbn [andb].
  - destruct t; exact IH.
  - now rewrite IH.
Qed.

Lemma withoutCharacters_twice (p q : ascii -> bool) (t : string) :
  withoutCharacters q (withoutCharacters p t) =
  withoutCharacters (fun c => p c || q c) t.
Proof.
  induction t as [|c t IH]; [reflexivity|].
  cbn [withoutCharacters]. destruct (p c); cbn [orb withoutCharacters]; [exact IH|].
  destruct (q c); now rewrite IH.
Qed.

Lemma withoutCharacters_ext (p q : ascii -> bool) (t : string) :
  (forall c, p c = q c) -> withoutCharacters p t = withoutCharacters q t.
Proof.
  intros H. induction t as [|c t IH]; [reflexivity|].
  cbn [withoutCharacters]. now rewrite H, IH.
Qed.

Lemma withoutCharacters_app (p : ascii -> bool) (s t : string) :
  withoutCharacters p (s ++ t) = withoutCharacters p s ++ withoutCharacters p t.
Proof.
  induction s as [|c s IH]; [reflexivity|].
  cbn [append withoutCharacters]. destruct (p c); cbn [append]; now rewrite IH.
Qed.

Lemma withoutCharacters_none (p : ascii -> bool) (t : string) :
  hasAny p (withoutCharacters p t) = false.
Proof.
  induction t as [|c t IH]; [reflexivity|].
  cbn [withoutCharacters]. destruct (p c) eqn:E; [exact IH|].
  cbn [hasAny]. now rewrite E, IH.
Qed.

Lemma withoutCharacters_clean (p : ascii -> bool) (t : string) :
  hasAny p t = false -> withoutCharacters p t = t.
Proof.
  induction t as [|c t IH]; [reflexivity|]. cbn [hasAny withoutCharacters].
  intros H. apply orb_false_elim in H as [-> H]. now rewrite IH.
Qed.

Lemma single_eqb (c d : ascii) :
  String.eqb (String d "") (String c "") = Ascii.eqb c d.
Proof.
  cbn [String.eqb]. rewrite Ascii.eqb_sym. now destruct (Ascii.eqb c d).
Qed.

Lemma fold_removeAll_single (bs : list string) (t : string) :
  forallb isSingleCharacter bs = true ->
  fold_left (fun acc b => removeAll b acc) bs t =
  withoutCharacters (isBracketCharacter bs) t.
Proof.
  revert t; induction bs as [|b bs IH]; intros t H.
  - cbn [fold_left]. symmetry. apply withoutCharacters_clean.
    induction t as [|c t IHt]; [reflexivity | exact IHt].
  - cbn [forallb] in H. apply andb_prop in H as [Hb Hbs].
    destruct b as [|c [|? ?]]; try discriminate.
    cbn [fold_left]. rewrite removeAll_single, (IH _ Hbs), withoutCharacters_twice.
    apply withoutCharacters_ext. intros d.
    unfold isBracketCharacter. cbn [existsb]. now rewrite single_eqb.
Qed.

Lemma removeBracketsFromText_single (openBrackets closedBrackets : list string)
    (text : string) :
  forallb isSingleCharacter (openBrackets ++ closedBrackets) = true ->
  removeBracketsFromText openBrackets closedBrackets text =
  Some (withoutCharacters (isBracketCharacter (openBrackets ++ closedBrackets)) text).
Proof.
  intros H. rewrite removeBracketsFromText_literal. unfold removeBrackets.
  now rewrite fold_removeAll_single.
Qed.

Lemma isBracketCharacter_sameStrings (l l' : list string) (c : ascii) :
  sameStrings l l' = true -> isBracketCharacter l c = isBracketCharacter l' c.
Proof.
  unfold sameStrings, isBracketCharacter. intros H.
  apply andb_prop in H as [H1 H2].
  rewrite forallb_forall in H1, H2.
  destruct (existsb (String.eqb (String c "")) l) eqn:E;
    destruct (existsb (String.eqb (String c "")) l') eqn:E'; try reflexivity.
  - apply existsb_exists in E as (b & Hb & Hbc). apply String.eqb_eq in Hbc; subst b.
    now rewrite (H1 _ Hb) in E'.
  - apply existsb_exists in E' as (b & Hb & Hbc). apply String.eqb_eq in Hbc; subst b.
    now rewrite (H2 _ Hb) in E.
Qed.

(** X11: when every bracket string is a single character,
    [removeBracketsFromText] returns the text without the characters that
    are bracket strings; the order of the brackets and their split into
    open and close play no part: any other two lists of the same
    single-character strings give the same result. *)
Theorem X11_single_character_brackets
    (openBrackets closedBrackets openBrackets' closedBrackets' : list string)
    (text : string) :
  forallb isSingleCharacter (openBrackets ++ closedBrackets) = true ->
  sameStrings (openBrackets ++ closedBrackets) (openBrackets' ++ closedBrackets') = true ->
  removeBracketsFromText openBrackets closedBrackets text =
    Some (withoutCharacters (isBracketCharacter (openBrackets ++ closedBrackets)) text)
  /\ removeBracketsFromText openBrackets' closedBrackets' text =
     removeBracketsFromText openBrackets closedBrackets text.
Proof.
  intros H Hsame.
  assert (H' : forallb isSingleCharacter (openBrackets' ++ closedBrackets') = true).
  { apply forallb_forall. intros b Hb.
    unfold sameStrings in Hsame. apply andb_prop in Hsame as [_ H2].
    rewrite forallb_forall in H2. apply H2, existsb_exists in Hb as (b' & Hb' & E).
    apply String.eqb_eq in E; subst b'.
    rewrite forallb_forall in H. now apply H. }
  rewrite !removeBracketsFromText_literal. unfold removeBrackets.
  rewrite !fold_removeAll_single by assumption.
  split; [reflexivity|]. f_equal.
  apply withoutCharacters_ext. intros c. symmetry.
  now apply isBracketCharacter_sameStrings.
Qed.

Lemma X11_witness :
  removeBracketsFromText ["{"; "["; "("] ["}"; "]"; ")"] "f(a[1]) { }" =
    Some (withoutCharacters
            (isBracketCharacter (["{"; "["; "("] ++ ["}"; "]"; ")"])) "f(a[1]) { }")
  /\ removeBracketsFromText [")"; "("] ["]"; "["; "}"; "{"; "("] "f(a[1]) { }" =
     removeBracketsFromText ["{"; "["; "("] ["}"; "]"; ")"] "f(a[1]) { }".
Proof.
  apply (X11_single_character_brackets ["{"; "["; "("] ["}"; "]"; ")"]
           [")"; "("] ["]"; "["; "}"; "{"; "("] "f(a[1]) { }");
    reflexivity.
Defined.

(** X12: with single-character brackets the result holds no bracket
    character any more, removing again changes nothing, and the result for
    two texts put together is the two results put together. *)
Theorem X12_single_character_clean (openBrackets closedBrackets : list string)
    (text text' : string) :
  forallb isSingleCharacter (openBrackets ++ closedBrackets) = true ->
  exists result result',
    removeBracketsFromText openBrackets closedBrackets text = Some result
    /\ removeBracketsFromText openBrackets closedBrackets text' = Some result'
    /\ hasAny (isBracketCharacter (openBrackets ++ closedBrackets)) result = false
    /\ removeBracketsFromText openBrackets closedBrackets result = Some result
    /\ removeBracketsFromText openBrackets closedBrackets (text ++ text')
       = Some (result ++ result').
Proof.
  intros H.
  exists (withoutCharacters (isBracketCharacter (openBrackets ++ closedBrackets)) text),
         (withoutCharacters (isBracketCharacter (openBrackets ++ closedBrackets)) text').
  rewrite !(removeBracketsFromText_single _ _ _ H).
  split; [reflexivity|]. split; [reflexivity|].
  split; [apply withoutCharacters_none|].
  split.
  - f_equal. apply withoutCharacters_clean, withoutCharacters_none.
  - f_equal. apply withoutCharacters_app.
Qed.

Lemma X12_witness :
  exists result result',
    removeBracketsFromText ["("] [")"] "a(b" = Some result
    /\ removeBracketsFromText ["("] [")"] "c)" = Some result'
    /\ hasAny (isBracketCharacter (["("] ++ [")"])) result = false
    /\ removeBracketsFromText ["("] [")"] result = Some result
    /\ removeBracketsFromText ["("] [")"] ("a(b" ++ "c)") = Some (result ++ result').
Proof.
  apply (X12_single_character_clean ["("] [")"] "a(b" "c)"). reflexivity.
Defined.

(** Neither holds for longer bracket strings: removing [ab] from [aabb]
    leaves [ab], and an occurrence cut in two by a token boundary stays. *)
Example longer_brackets_differ :
  removeBracketsFromText ["ab"] [] "aabb" = Some "ab"
  /\ removeBracketsFromText ["ab"] [] "ab" = Some ""
  /\ removeBracketsFromText ["<!--"] [] ("<!" ++ "--") = Some ""
  /\ removeBracketsFromText ["<!--"] [] "<!" = Some "<!"
  /\ removeBracketsFromText ["<!--"] [] "--" = Some "--".
Proof. repeat split; vm_compute; reflexivity. Qed.

End RemovalProperties.

(** ** Whole lines *)

Section LineProperties.
Import Literal Sanitizer Shape IndentationLineProcessor.

Lemma join_Subsequence (f g : nat -> string) (l : list nat) :
  (forall i, Subsequence (f i) (g i)) ->
  Subsequence (JsString.join (map f l)) (JsString.join (map g l)).
Proof.
  intros H. induction l as [|i l IH]; [constructor|].
  cbn [map JsString.join fold_right]. apply Subsequence_app; [apply H | exact IH].
Qed.

Lemma sanitizedTokenText_Subsequence (bs : RichEditBrackets.t)
    (tokens : IViewLineTokens) (i : nat) :
  Subsequence (sanitizedTokenText bs tokens i) (getTokenText tokens i).
Proof.
  unfold sanitizedTokenText.
  destruct (isLiteralLike (getStandardTokenType tokens i)).
  - apply fold_removeAll_Subsequence.
  - apply Subsequence_refl.
Qed.

(** X13: on a stream whose token texts make up the line,
    [getProcessedLineForTokens] only deletes: the processed line is the line
    content with some characters left out, in the same order, and never
    longer than it. *)
Theorem X13_processed_line_only_deletes (svc : ILanguageConfigurationService)
    (tokens : IViewLineTokens) :
  coversLine tokens ->
  exists processedLine,
    getProcessedLineForTokens svc tokens = Some processedLine
    /\ Subsequence processedLine (getLineContent tokens)
    /\ (String.length processedLine <= String.length (getLineContent tokens))%nat.
Proof.
  intros Hcov. rewrite getProcessedLineForTokens_eq.
  eexists; split; [reflexivity|].
  assert (H : Subsequence
                match bracketPairSet svc (getLanguageId tokens 0) with
                | Some bs => sanitize bs tokens
                | None => getLineContent tokens
                end (getLineContent tokens)).
  { destruct (bracketPairSet svc (getLanguageId tokens 0)) as [bs|].
    - rewrite Hcov. unfold sanitize, tokenTexts.
      apply join_Subsequence. intros i. apply sanitizedTokenText_Subsequence.
    - apply Subsequence_refl. }
  split; [exact H | now apply Subsequence_length].
Qed.

Lemma X13_witness :
  exists processedLine,
    getProcessedLineForTokens Examples.svc (LineTokens.view Examples.callLine)
      = Some processedLine
    /\ Subsequence processedLine (getLineContent (LineTokens.view Examples.callLine))
    /\ (String.length processedLine
        <= String.length (getLineContent (LineTokens.view Examples.callLine)))%nat.
Proof.
  apply (X13_processed_line_only_deletes Examples.svc (LineTokens.view Examples.callLine)).
  reflexivity.
Defined.

Lemma getLeadingWhitespace_rest (isWhitespace : ascii -> bool) (line : string) :
  getLeadingWhitespace isWhitespace (withoutLeadingWhitespace isWhitespace line) = "".
Proof.
  induction line as [|c line IH]; [reflexivity|].
  cbn [withoutLeadingWhitespace]. destruct (isWhitespace c) eqn:E; [exact IH|].
  cbn [getLeadingWhitespace]. now rewrite E.
Qed.

Lemma withoutLeadingWhitespace_rest (isWhitespace : ascii -> bool) (line : string) :
  withoutLeadingWhitespace isWhitespace (withoutLeadingWhitespace isWhitespace line)
  = withoutLeadingWhitespace isWhitespace line.
Proof.
  induction line as [|c line IH]; [reflexivity|].
  cbn [withoutLeadingWhitespace]. destruct (isWhitespace c) eqn:E; [exact IH|].
  cbn [withoutLeadingWhitespace]. now rewrite E.
Qed.

Lemma getLeadingWhitespace_indented (isWhitespace : ascii -> bool)
    (indentation rest : string) :
  onlyOf isWhitespace indentation = true ->
  getLeadingWhitespace isWhitespace (indentation ++ rest)
  = indentation ++ getLeadingWhitespace isWhitespace rest.
Proof.
  induction indentation as [|c ind IH]; [reflexivity|].
  cbn [onlyOf append getLeadingWhitespace]. intros H.
  apply andb_prop in H as [-> H]. now rewrite IH.
Qed.

Lemma withoutLeadingWhitespace_indented (isWhitespace : ascii -> bool)
    (indentation rest : string) :
  onlyOf isWhitespace indentation = true ->
  withoutLeadingWhitespace isWhitespace (indentation ++ rest)
  = withoutLeadingWhitespace isWhitespace rest.
Proof.
  induction indentation as [|c ind IH]; [reflexivity|].
  cbn [onlyOf append withoutLeadingWhitespace]. intros H.
  apply andb_prop in H as [-> H]. now apply IH.
Qed.

(** X14: when the replacement indentation is made of whitespace only, the
    line [getProcessedLine] returns has exactly that indentation as its
    leading whitespace and, after it, what the sanitized line has after its
    own; adjusting it once more to the same indentation changes nothing. *)
Theorem X14_whitespace_indentation (isWhitespace : ascii -> bool)
    (model : IVirtualModel.t) (svc : ILanguageConfigurationService)
    (lineNumber : Z) (newIndentation : string) :
  onlyOf isWhitespace newIndentation = true ->
  exists sanitized adjusted,
    getProcessedLine isWhitespace model svc lineNumber None = Some sanitized
    /\ getProcessedLine isWhitespace model svc lineNumber (Some newIndentation)
       = Some adjusted
    /\ getLeadingWhitespace isWhitespace adjusted = newIndentation
    /\ withoutLeadingWhitespace isWhitespace adjusted
       = withoutLeadingWhitespace isWhitespace sanitized
    /\ adjustIndentation isWhitespace adjusted newIndentation = adjusted.
Proof.
  intros Hws. unfold getProcessedLine.
  rewrite getProcessedLineForTokens_eq. cbn [bind].
  eexists; eexists. split; [reflexivity|]. split; [reflexivity|].
  rewrite !adjustIndentation_eq.
  rewrite withoutLeadingWhitespace_indented by exact Hws.
  rewrite getLeadingWhitespace_indented by exact Hws.
  rewrite getLeadingWhitespace_rest, withoutLeadingWhitespace_rest, append_nil_r.
  repeat split.
Qed.

Lemma X14_witness :
  exists sanitized adjusted,
    getProcessedLine Examples.isSpaceOrTab Examples.document Examples.svc 3 None
      = Some sanitized
    /\ getProcessedLine Examples.isSpaceOrTab Examples.document Examples.svc 3 (Some "    ")
       = Some adjusted
    /\ getLeadingWhitespace Examples.isSpaceOrTab adjusted = "    "
    /\ withoutLeadingWhitespace Examples.isSpaceOrTab adjusted
       = withoutLeadingWhitespace Examples.isSpaceOrTab sanitized
    /\ adjustIndentation Examples.isSpaceOrTab adjusted "    " = adjusted.
Proof.
  apply (X14_whitespace_indentation Examples.isSpaceOrTab Examples.document
           Examples.svc 3 "    ").
  reflexivity.
Defined.

(** When the replacement holds something else, the leading whitespace of
    the result is not the replacement. *)
Example indentation_not_whitespace :
  getProcessedLine Examples.isSpaceOrTab Examples.document Examples.svc 4 (Some "> ")
    = Some "> foo()"
  /\ getLeadingWhitespace Examples.isSpaceOrTab "> foo()" = "".
Proof. split; vm_compute; reflexivity. Qed.

(** X15: handing [getProcessedLine] the leading whitespace of the
    sanitized line as the replacement gives the sanitized line back. *)
Theorem X15_own_indentation (isWhitespace : ascii -> bool)
    (model : IVirtualModel.t) (svc : ILanguageConfigurationService) (lineNumber : Z) :
  exists sanitized,
    getProcessedLine isWhitespace model svc lineNumber None = Some sanitized
    /\ getProcessedLine isWhitespace model svc lineNumber
         (Some (getLeadingWhitespace isWhitespace sanitized))
       = Some sanitized.
Proof.
  unfold getProcessedLine. rewrite getProcessedLineForTokens_eq. cbn [bind].
  eexists; split; [reflexivity|].
  rewrite adjustIndentation_eq. f_equal. symmetry. apply leadingWhitespace_split.
Qed.

End LineProperties.

(** ** The context processor *)

Section ContextProperties.
Import Shape IndentationLineProcessor IndentationContextProcessor.

Variable State : Type.
Variable model : ITextModel.t State.
Variable svc : ILanguageConfigurationService.
Variable createScopedLineTokens : LineTokens -> Z -> ScopedLineTokens.t.
Variable sliceAndInflate : LineTokens -> Z -> Z -> Z -> IViewLineTokens.

Lemma _getProcessedTextBeforeRange_text (range : Range.t) (scope : ScopedLineTokens.t)
    (st : State) :
  exists text,
    _getProcessedTextBeforeRange model svc sliceAndInflate range scope st = Some (text, st)
    /\ Some text =
       getProcessedLineForTokens svc
         (sliceAndInflate (ITextModel.getLineTokens model st (Range.startLineNumber range))
            (ScopedLineTokens.firstCharOffset scope) (Range.startColumn range - 1) 0).
Proof.
  unfold _getProcessedTextBeforeRange, bindC, getLineTokensC.
  replace (ScopedLineTokens.firstCharOffset scope
           + (Range.startColumn range - 1 - ScopedLineTokens.firstCharOffset scope))%Z
    with (Range.startColumn range - 1)%Z by lia.
  destruct (getProcessedLineForTokensC_run State svc
              (sliceAndInflate
                 (ITextModel.getLineTokens model st (Range.startLineNumber range))
                 (ScopedLineTokens.firstCharOffset scope) (Range.startColumn range - 1) 0)
              st) as (text & H1 & H2).
  exists text. split; [exact H2 | now rewrite H1].
Qed.

Lemma _getProcessedPreviousLine_state (range : Range.t) (scope : ScopedLineTokens.t)
    (st : State) :
  exists text,
    _getProcessedPreviousLine model svc createScopedLineTokens sliceAndInflate
      range scope st
    = Some (text,
            if negb (Range.startLineNumber range =? 1)%Z
               && ScopedLineTokens.doesScopeStartAtOffsetZero scope
            then ITextModel.forceTokenization model (Range.startLineNumber range - 1) st
            else st).
Proof.
  unfold _getProcessedPreviousLine.
  replace (Range.startLineNumber range =? 1)%Z
    with (Range.startLineNumber range - 1 =? 0)%Z
    by (destruct (Z.eqb_spec (Range.startLineNumber range - 1) 0);
        destruct (Z.eqb_spec (Range.startLineNumber range) 1); try reflexivity; lia).
  destruct (Range.startLineNumber range - 1 =? 0)%Z; [exists ""; reflexivity|].
  destruct (ScopedLineTokens.doesScopeStartAtOffsetZero scope);
    [|exists ""; reflexivity].
  cbn [negb andb].
  unfold bindC, getScopedLineTokensAtEndColumnOfLine, getSlicedLineTokensForScopeAtLine,
    bindC, forceTokenizationC, getLineTokensC, getLineMaxColumnC, ret.
  match goal with
  | |- context [negb ?b] => destruct b
  end; [|exists ""; reflexivity].
  cbn [negb].
  match goal with
  | |- context [getProcessedLineForTokensC svc ?tokens ?st'] =>
      destruct (getProcessedLineForTokensC_run State svc tokens st') as (text & _ & H)
  end.
  exists text. exact H.
Qed.

(** X1: [beforeRangeText] is the sanitized slice of the token stream of the
    start line from the first offset of the scope found at the start of the
    range up to the start column. *)
Theorem X1_before_range_text (range : Range.t) (st : State) :
  let startLine := Range.startLineNumber range in
  let st1 := ITextModel.forceTokenization model startLine st in
  let lineTokens := ITextModel.getLineTokens model st1 startLine in
  let scope := createScopedLineTokens lineTokens (Range.startColumn range - 1) in
  exists context st',
    getProcessedContextAroundRange model svc createScopedLineTokens sliceAndInflate
      range st = Some (context, st')
    /\ Some (beforeRangeText context) =
       getProcessedLineForTokens svc
         (sliceAndInflate lineTokens (ScopedLineTokens.firstCharOffset scope)
            (Range.startColumn range - 1) 0).
Proof.
  intros startLine st1 lineTokens scope.
  unfold getProcessedContextAroundRange.
  unfold bindC at 1 2. unfold forceTokenizationC, getLineTokensC.
  fold startLine. fold st1. fold lineTokens. fold scope.
  unfold bindC at 1.
  destruct (_getProcessedTextBeforeRange_text range scope st1) as (before & -> & Hbefore).
  unfold bindC at 1.
  destruct (_getProcessedTextAfterRange_run State model svc sliceAndInflate range scope st1)
    as (after & -> & _).
  unfold bindC at 1.
  destruct (_getProcessedPreviousLine_state range scope st1) as (prev & ->).
  eexists; eexists. split; [reflexivity | exact Hbefore].
Qed.

(** X2: [getProcessedContextAroundRange] forces the tokenization of the
    start line, and after it of the previous line when the start line is not
    line 1 and the scope found at the start of the range begins at offset
    zero, whether or not the languages then agree; it forces nothing else,
    in particular not the end line of the range. *)
Theorem X2_tokenization_forced (range : Range.t) (st : State) :
  let startLine := Range.startLineNumber range in
  let st1 := ITextModel.forceTokenization model startLine st in
  let scope :=
    createScopedLineTokens (ITextModel.getLineTokens model st1 startLine)
      (Range.startColumn range - 1) in
  exists context,
    getProcessedContextAroundRange model svc createScopedLineTokens sliceAndInflate
      range st
    = Some (context,
            if negb (startLine =? 1)%Z
               && ScopedLineTokens.doesScopeStartAtOffsetZero scope
            then ITextModel.forceTokenization model (startLine - 1) st1
            else st1).
Proof.
  intros startLine st1 scope.
  unfold getProcessedContextAroundRange.
  unfold bindC at 1 2. unfold forceTokenizationC, getLineTokensC.
  fold startLine. fold st1. fold scope.
  unfold bindC at 1.
  destruct (_getProcessedTextBeforeRange_text range scope st1) as (before & -> & _).
  unfold bindC at 1.
  destruct (_getProcessedTextAfterRange_run State model svc sliceAndInflate range scope st1)
    as (after & -> & _).
  unfold bindC at 1.
  destruct (_getProcessedPreviousLine_state range scope st1) as (prev & ->).
  eexists. reflexivity.
Qed.

Lemma getProcessedContextAroundRange_parts (range : Range.t) (st : State) :
  let startLine := Range.startLineNumber range in
  let st1 := ITextModel.forceTokenization model startLine st in
  let scope :=
    createScopedLineTokens (ITextModel.getLineTokens model st1 startLine)
      (Range.startColumn range - 1) in
  exists before after prev st',
    getProcessedContextAroundRange model svc createScopedLineTokens sliceAndInflate
      range st
    = Some ({| beforeRangeText := before; afterRangeText := after;
               previousLineText := prev |}, st')
    /\ _getProcessedTextBeforeRange model svc sliceAndInflate range scope st1
       = Some (before, st1)
    /\ _getProcessedPreviousLine model svc createScopedLineTokens sliceAndInflate
         range scope st1
       = Some (prev, st').
Proof.
  intros startLine st1 scope.
  unfold getProcessedContextAroundRange.
  unfold bindC at 1 2. unfold forceTokenizationC, getLineTokensC.
  fold startLine. fold st1. fold scope.
  unfold bindC at 1.
  destruct (_getProcessedTextBeforeRange_text range scope st1) as (before & Hb & _).
  rewrite Hb. unfold bindC at 1.
  destruct (_getProcessedTextAfterRange_run State model svc sliceAndInflate range scope st1)
    as (after & -> & _).
  unfold bindC at 1.
  destruct (_getProcessedPreviousLine_state range scope st1) as (prev & Hp).
  rewrite Hp.
  exists before, after, prev. eexists. repeat split.
Qed.

(** X3: [beforeRangeText], [previousLineText] and the tokenizer state left
    behind depend on the start of the range only: two ranges with the same
    start and any ends agree on them. *)
Theorem X3_end_of_range_irrelevant (startLineNumber startColumn : Z)
    (endLineNumber endColumn endLineNumber' endColumn' : Z) (st : State) :
  exists context context' st',
    getProcessedContextAroundRange model svc createScopedLineTokens sliceAndInflate
      (rangeFromTo startLineNumber startColumn endLineNumber endColumn) st
    = Some (context, st')
    /\ getProcessedContextAroundRange model svc createScopedLineTokens sliceAndInflate
         (rangeFromTo startLineNumber startColumn endLineNumber' endColumn') st
       = Some (context', st')
    /\ beforeRangeText context = beforeRangeText context'
    /\ previousLineText context = previousLineText context'.
Proof.
  destruct (getProcessedContextAroundRange_parts
              (rangeFromTo startLineNumber startColumn endLineNumber endColumn) st)
    as (before & after & prev & st' & Hrun & Hb & Hp).
  destruct (getProcessedContextAroundRange_parts
              (rangeFromTo startLineNumber startColumn endLineNumber' endColumn') st)
    as (before' & after' & prev' & st'' & Hrun' & Hb' & Hp').
  cbn [rangeFromTo Range.startLineNumber Range.startColumn] in Hb, Hp, Hb', Hp'.
  assert (Hbefore : Some (before', ITextModel.forceTokenization model startLineNumber st)
                    = Some (before, ITextModel.forceTokenization model startLineNumber st))
    by (rewrite <- Hb, <- Hb'; reflexivity).
  assert (Hprev : Some (prev', st'') = Some (prev, st'))
    by (rewrite <- Hp, <- Hp'; reflexivity).
  injection Hbefore as ->. injection Hprev as -> ->.
  eexists; eexists; exists st'.
  split; [exact Hrun|]. split; [exact Hrun'|]. split; reflexivity.
Qed.

End ContextProperties.

(** On the sample page, with nothing tokenized yet: a caret on line 2
    leaves lines up to 2 tokenized; a selection from line 1 into line 2
    leaves line 2 as it was, and its text after the range is read from the
    untokenized line. *)
Example tokenization_on_page :
  option_map snd (Examples.contextAround (Examples.caret 2 3) 0) = Some 2%Z
  /\ Examples.contextAround (Shape.rangeFromTo 1 11 2 3) 0
     = Some ({| IndentationContextProcessor.beforeRangeText := "f(";
                IndentationContextProcessor.afterRangeText := "'[') }";
                IndentationContextProcessor.previousLineText := "" |}, 1%Z)
  /\ option_map (fun r => IndentationContextProcessor.afterRangeText (fst r))
       (Examples.contextAround (Shape.rangeFromTo 1 11 2 3) 2)
     = Some "'') }".
Proof. repeat split; vm_compute; reflexivity. Qed.

(** ** The facade and bracket noise *)

Section FacadeProperties.
Import Literal Sanitizer Shape IndentationLineProcessor.

Lemma sanitize_sameButLiteralBrackets (bs : RichEditBrackets.t)
    (a b : IViewLineTokens) :
  forallb isSingleCharacter (bracketStrings bs) = true ->
  sameButLiteralBrackets (bracketStrings bs) a b = true ->
  sanitize bs a = sanitize bs b.
Proof.
  intros Hsingle Hsame. unfold sameButLiteralBrackets in Hsame.
  apply andb_prop in Hsame as [Hcount Hall].
  apply Nat.eqb_eq in Hcount. unfold sanitize. rewrite <- Hcount.
  revert Hall. generalize (seq 0 (getCount a)) as l.
  induction l as [|i l IH]; [reflexivity|].
  cbn [forallb map JsString.join fold_right]. intros H.
  apply andb_prop in H as [Hi Hl]. apply andb_prop in Hi as [Htype Htext].
  change (fold_right append "" ?x) with (JsString.join x).
  rewrite (IH Hl). f_equal.
  unfold sanitizedTokenText, removeBrackets.
  assert (Et : getStandardTokenType b i = getStandardTokenType a i)
    by (destruct (getStandardTokenType a i), (getStandardTokenType b i);
        (reflexivity || discriminate)).
  rewrite Et.
  destruct (isLiteralLike (getStandardTokenType a i)).
  - rewrite !fold_removeAll_single by exact Hsingle.
    now apply String.eqb_eq.
  - now apply String.eqb_eq.
Qed.

(** X16: brackets inside strings, comments and regular expressions never
    reach the rule evaluator: when the bracket strings are single
    characters, two lines that differ only in the bracket characters inside
    their tokens classified String, Comment or RegEx get the same answer
    from each of the four operations of the facade. *)
Theorem X16_facade_blind_to_literal_brackets (isWhitespace : ascii -> bool)
    (model : IVirtualModel.t) (rules : IndentRulesSupport.t)
    (svc : ILanguageConfigurationService) (bs : RichEditBrackets.t)
    (lineNumber lineNumber' : Z) (newIndentation : option string) :
  let tokens := LineTokens.view (IVirtualModel.getLineTokens model lineNumber) in
  let tokens' := LineTokens.view (IVirtualModel.getLineTokens model lineNumber') in
  bracketPairSet svc (getLanguageId tokens 0) = Some bs ->
  bracketPairSet svc (getLanguageId tokens' 0) = Some bs ->
  forallb isSingleCharacter (bracketStrings bs) = true ->
  sameButLiteralBrackets (bracketStrings bs) tokens tokens' = true ->
  ProcessedIndentRulesSupport.shouldIncrease isWhitespace model rules svc
    lineNumber newIndentation
  = ProcessedIndentRulesSupport.shouldIncrease isWhitespace model rules svc
      lineNumber' newIndentation
  /\ ProcessedIndentRulesSupport.shouldDecrease isWhitespace model rules svc
       lineNumber newIndentation
     = ProcessedIndentRulesSupport.shouldDecrease isWhitespace model rules svc
         lineNumber' newIndentation
  /\ ProcessedIndentRulesSupport.shouldIgnore isWhitespace model rules svc
       lineNumber newIndentation
     = ProcessedIndentRulesSupport.shouldIgnore isWhitespace model rules svc
         lineNumber' newIndentation
  /\ ProcessedIndentRulesSupport.shouldIndentNextLine isWhitespace model rules svc
       lineNumber newIndentation
     = ProcessedIndentRulesSupport.shouldIndentNextLine isWhitespace model rules svc
         lineNumber' newIndentation.
Proof.
  intros tokens tokens' Hbs Hbs' Hsingle Hsame.
  assert (H : getProcessedLine isWhitespace model svc lineNumber newIndentation
              = getProcessedLine isWhitespace model svc lineNumber' newIndentation).
  { unfold getProcessedLine. fold tokens. fold tokens'.
    rewrite !getProcessedLineForTokens_eq, Hbs, Hbs'.
    now rewrite (sanitize_sameButLiteralBrackets bs tokens tokens'). }
  unfold ProcessedIndentRulesSupport.shouldIncrease,
    ProcessedIndentRulesSupport.shouldDecrease,
    ProcessedIndentRulesSupport.shouldIgnore,
    ProcessedIndentRulesSupport.shouldIndentNextLine.
  rewrite H. repeat split.
Qed.

Lemma X16_witness :
  ProcessedIndentRulesSupport.shouldIncrease Examples.isSpaceOrTab
    Examples.noisyDocument Examples.curlyRules Examples.svc 1 None
  = ProcessedIndentRulesSupport.shouldIncrease Examples.isSpaceOrTab
      Examples.noisyDocument Examples.curlyRules Examples.svc 2 None
  /\ ProcessedIndentRulesSupport.shouldDecrease Examples.isSpaceOrTab
       Examples.noisyDocument Examples.curlyRules Examples.svc 1 None
     = ProcessedIndentRulesSupport.shouldDecrease Examples.isSpaceOrTab
         Examples.noisyDocument Examples.curlyRules Examples.svc 2 None
  /\ ProcessedIndentRulesSupport.shouldIgnore Examples.isSpaceOrTab
       Examples.noisyDocument Examples.curlyRules Examples.svc 1 None
     = ProcessedIndentRulesSupport.shouldIgnore Examples.isSpaceOrTab
         Examples.noisyDocument Examples.curlyRules Examples.svc 2 None
  /\ ProcessedIndentRulesSupport.shouldIndentNextLine Examples.isSpaceOrTab
       Examples.noisyDocument Examples.curlyRules Examples.svc 1 None
     = ProcessedIndentRulesSupport.shouldIndentNextLine Examples.isSpaceOrTab
         Examples.noisyDocument Examples.curlyRules Examples.svc 2 None.
Proof.
  apply (X16_facade_blind_to_literal_brackets Examples.isSpaceOrTab
           Examples.noisyDocument Examples.curlyRules Examples.svc
           Examples.jsBrackets 1 2 None);
    reflexivity.
Defined.

(** The raw lines differ, and the evaluator would tell them apart: the
    comment of line 1 holds a closing curly bracket, the one of line 2 does
    not. *)
Example noisy_lines :
  ProcessedIndentRulesSupport.shouldDecrease Examples.isSpaceOrTab
    Examples.noisyDocument Examples.curlyRules Examples.svc 1 None = Some false
  /\ IndentRulesSupport.shouldDecrease Examples.curlyRules
       (lineText (IVirtualModel.getLineTokens Examples.noisyDocument 1)) = true
  /\ IndentRulesSupport.shouldDecrease Examples.curlyRules
       (lineText (IVirtualModel.getLineTokens Examples.noisyDocument 2)) = false.
Proof. repeat split; vm_compute; reflexivity. Qed.

End FacadeProperties.
